(** * pact-go, [consumer/http_v2.go]: the V2 fluent facade for HTTP consumer tests

    A shallow embedding of the V2 interaction builder.  The Go code mutates a
    native interaction through pointers that several handles share, panics on
    invalid matchers and writes to the process log; all three are kept:
    the native interactions live in a store addressed by the pointer,
    every method is a computation over that store that may panic, and the log
    is part of the state. *)

From Stdlib Require Import ZArith List Bool Lia.
From stdpp Require Import base list strings.

#[local] Set Warnings "-register-all".
Local Open Scope string_scope.
Local Open Scope list_scope.

(** ** [models]: specification versions *)

Module models.

(** Modelled from the spec: the specification versions ([models] is defined
    outside [http_v2.go], which uses [models.V2]). *)
Inductive SpecificationVersion := V2 | V3.

#[global] Instance SpecificationVersion_eq_dec : EqDecision SpecificationVersion.
Proof. solve_decision. Defined.

Definition rank (v : SpecificationVersion) : nat :=
  match v with V2 => 2 | V3 => 3 end.

(** [leb a b]: version [a] is not newer than version [b]. *)
Definition leb (a b : SpecificationVersion) : bool := Nat.leb (rank a) (rank b).

End models.

(** ** Errors and panics *)

(** The error values the facade can meet: those the spec names for its
    construction errors, the run-time panic of a call through a dangling
    pointer, and any other error, kept as its message. *)
Inductive Error :=
| UnsupportedForSpecVersionError
| IncompatibleTypeError
| MissingExampleError
| NilPointerDereference
| ErrorString (msg : string).

(** The outcome of a Go call: it returns, or it panics with an error value. *)
Inductive Res (A : Type) :=
| Ok (a : A)
| Panic (e : Error).
Arguments Ok {A} a.
Arguments Panic {A} e.

#[global] Instance Res_ret : MRet Res := fun A a => Ok a.

#[global] Instance Res_bind : MBind Res := fun A B f r =>
  match r with
  | Ok a => f a
  | Panic e => Panic e
  end.

(** Left to right over a list, stopping at the first panic. *)
Definition traverse {X Y} (f : X -> Res Y) : list X -> Res (list Y) :=
  fix each (l : list X) : Res (list Y) :=
    match l with
    | [] => Ok []
    | x :: rest => y ← f x; ys ← each rest; Ok (y :: ys)
    end.

(** ** [matchers]: the values a body, a path or a header can hold *)

Module matchers.

(** Modelled from the spec: the values of package [matchers], defined outside
    [http_v2.go].  Go passes bodies as [interface{}]; [Value] lists the
    dynamic types the facade distinguishes: a Go [string] ([VString]) is what
    the type assertion [body.(string)] of [JSONBody] recognises, [String] is
    the named matcher type [matchers.String], containers nest, and the
    remaining constructors are the matching rules of the data model. *)
Inductive Value :=
| VNil
| VBool (b : bool)
| VInt (n : Z)
| VString (s : string)
| VSlice (elements : list Value)
| VMap (entries : list (string * Value))
| String (s : string)
| Equality (value : Value)
| Regex (example pattern : string)
| TypeLike (example : Value)
| Integer (example : Z)
| Decimal (example : string)
| ArrayMinLike (example : Value) (min : nat)
| ArrayMaxLike (example : Value) (max : nat)
| ArrayMinMaxLike (example : Value) (min max : nat)
| ArrayContaining (elements : list Value)
| Includes (substring : string)
| FromProviderState (expression example : string)
| DateTimeGenerated (example format : string).

Abbreviation Matcher := Value (only parsing).

(** [map[string][]Matcher], in the order the caller wrote the entries. *)
Abbreviation HeadersMatcher := (list (string * list Value)) (only parsing).

(** The immediate sub-values of a value. *)
Definition children (v : Value) : list Value :=
  match v with
  | VSlice vs | ArrayContaining vs => vs
  | VMap kvs => map snd kvs
  | Equality c | TypeLike c
  | ArrayMinLike c _ | ArrayMaxLike c _ | ArrayMinMaxLike c _ _ => [c]
  | _ => []
  end.

(** [Contains body r]: [r] occurs in [body], at any depth. *)
Inductive Contains : Value -> Value -> Prop :=
| Contains_here v : Contains v v
| Contains_child v c r : In c (children v) -> Contains c r -> Contains v r.

(** Modelled from the spec: the specification version a rule needs (the
    table behind [validateMatchers], defined outside [http_v2.go]).
    [FromProviderState] and [DateTimeGenerated] require V3; every other
    rule, and every plain value, is legal from V2 on. *)
Definition minimumVersion (v : Value) : models.SpecificationVersion :=
  match v with
  | FromProviderState _ _ | DateTimeGenerated _ _ => models.V3
  | _ => models.V2
  end.

(** Modelled from the spec: [tooNew version v] holds when some rule inside
    [v], at any depth, needs a version above [version]. *)
Fixpoint tooNew (version : models.SpecificationVersion) (v : Value) : bool :=
  negb (models.leb (minimumVersion v) version) ||
  match v with
  | VSlice vs | ArrayContaining vs => existsb (tooNew version) vs
  | VMap kvs => existsb (fun kv => tooNew version (snd kv)) kvs
  | Equality c | TypeLike c
  | ArrayMinLike c _ | ArrayMaxLike c _ | ArrayMinMaxLike c _ _ => tooNew version c
  | _ => false
  end.

(** *** Typed records, the input of [MatchV2] *)

(** Modelled from the spec: the per-field metadata a struct tag carries, an
    example, a format and a generator. *)
Inductive GeneratorKind := GenDateTime | GenProviderState.

Record FieldTag := {
  example : option Value;
  format : option string;
  generator : option GeneratorKind
}.

(** Modelled from the spec: the static type of the value handed to
    [BodyMatch], as reflection sees it: each struct field has its JSON name,
    its tag and its type. *)
Inductive GoType :=
| TBool | TInt | TFloat | TString
| TPtr (elem : GoType)
| TSlice (elem : GoType)
| TStruct (fields : list (string * FieldTag * GoType))
| TChan (elem : GoType)
| TFunc
| TComplex.


(** Modelled from the spec: a type has a JSON form unless a channel, a
    function or a complex number occurs in it. *)
Fixpoint jsonRepresentable (t : GoType) : bool :=
  match t with
  | TBool | TInt | TFloat | TString => true
  | TPtr e | TSlice e => jsonRepresentable e
  | TStruct fields => forallb (fun f => jsonRepresentable (snd f)) fields
  | TChan _ | TFunc | TComplex => false
  end.



(** Modelled from the spec: the matcher of one field at V2.  A scalar field
    gives a type rule around its example; without an example it fails with
    [MissingExampleError], and with a declared generator, which V2 does not
    support, with [UnsupportedForSpecVersionError] (the format is the
    parameter of the generated rule, so at V2 it reaches no matcher).  A
    struct gives the map of the matchers of its fields, under their JSON
    names and in their order; a slice asks for at least one element like its
    element type. *)
Fixpoint derive (tag : option FieldTag) (t : GoType) : Res Value :=
  match t with
  | TBool | TInt | TFloat | TString =>
      match tag with
      | Some {| example := Some e; generator := None |} => Ok (TypeLike e)
      | Some {| example := Some _; generator := Some _ |} =>
          Panic UnsupportedForSpecVersionError
      | _ => Panic MissingExampleError
      end
  | TPtr e => derive tag e
  | TSlice e => m ← derive tag e; Ok (ArrayMinLike m 1)
  | TStruct fields =>
      kvs ← traverse (fun f => m ← derive (Some (snd (fst f))) (snd f);
                               Ok (fst (fst f), m)) fields;
      Ok (VMap kvs)
  | TChan _ | TFunc | TComplex => Panic IncompatibleTypeError
  end.


(** Modelled from the spec: [MatchV2], which derives the matchers of a typed
    record from its per-field metadata (it is defined outside [http_v2.go]).
    Go's [MatchV2] returns a bare [Matcher], so a failure is a panic.
    A record with no JSON form fails with [IncompatibleTypeError]; a field
    without its example fails with [MissingExampleError]; a field that
    declares a generator fails with [UnsupportedForSpecVersionError], the
    resolved specification version being V2. *)
Definition MatchV2 (src : GoType) : Res Value :=
  if jsonRepresentable src then derive None src else Panic IncompatibleTypeError.

End matchers.

(** Modelled from the spec: [validateMatchers], the check [JSONBody] runs
    before it registers a body (it is defined outside [http_v2.go]).  A
    body that holds a rule newer than the interaction's specification version
    is refused with [UnsupportedForSpecVersionError]; [None] is Go's [nil]. *)
Definition validateMatchers (version : models.SpecificationVersion)
    (body : matchers.Value) : option Error :=
  if matchers.tooNew version body then Some UnsupportedForSpecVersionError else None.

(** ** [mockserver]: the native interaction behind the facade *)

Module mockserver.

(** Modelled from the spec: a provider state, a name and a parameter
    mapping. *)
Record ProviderState := {
  name : string;
  parameters : list (string * matchers.Value)
}.

(** Modelled from the spec: the body of a request or a response, one
    constructor for each native body method. *)
Inductive Body :=
| JSONBody (body : matchers.Value)
| BinaryBody (body : list Byte.byte)
| MultipartFile (contentType filename mimePartName : string)
| RawBody (contentType : string) (body : list Byte.byte).

(** Modelled from the spec: the request of an interaction. *)
Record RequestSpec := {
  method : string;
  path : matchers.Value;
  query : list (string * list matchers.Value);
  requestHeaders : list (string * list matchers.Value);
  requestBody : option Body
}.

(** Modelled from the spec: the response of an interaction.  [status] is a Go
    [int]; the facade stores it and never computes with it. *)
Record ResponseSpec := {
  status : Z;
  responseHeaders : list (string * list matchers.Value);
  responseBody : option Body
}.

(** Modelled from the spec: the native interaction, which the facade reaches
    only through a pointer (package [mockserver] is outside [http_v2.go]).
    It holds the ordered provider states, the description, the request and
    the response. *)
Record Interaction := {
  states : list ProviderState;
  description : string;
  request : RequestSpec;
  response : ResponseSpec
}.

(** Modelled from the spec: the mock server of one provider, which holds the
    pointers of its interactions in registration order. *)
Record MockServer := { interactions : list nat }.

(** Modelled from the spec: an interaction is created empty. *)
Definition emptyRequest : RequestSpec :=
  {| method := ""; path := matchers.VNil; query := []; requestHeaders := [];
     requestBody := None |}.

(** Modelled from the spec: the response of an empty interaction, with Go's
    zero status. *)
Definition emptyResponse : ResponseSpec :=
  {| status := 0; responseHeaders := []; responseBody := None |}.

(** A change of the request alone, and of the response alone. *)
Definition withRequest (f : RequestSpec -> RequestSpec) (i : Interaction) : Interaction :=
  {| states := states i; description := description i;
     request := f (request i); response := response i |}.

Definition withResponse (f : ResponseSpec -> ResponseSpec) (i : Interaction) : Interaction :=
  {| states := states i; description := description i;
     request := request i; response := f (response i) |}.

Definition setRequestBody (b : Body) : Interaction -> Interaction :=
  withRequest (fun r =>
    {| method := method r; path := path r; query := query r;
       requestHeaders := requestHeaders r; requestBody := Some b |}).

Definition setResponseBody (b : Body) : Interaction -> Interaction :=
  withResponse (fun r =>
    {| status := status r; responseHeaders := responseHeaders r;
       responseBody := Some b |}).

(** Modelled from the spec: a new interaction has the description it is
    created with and nothing else.  The methods below are those of the native
    interaction, each a change of the interaction it is called on. *)
Definition NewInteraction (description : string) : Interaction :=
  {| states := []; description := description;
     request := emptyRequest; response := emptyResponse |}.

(** Modelled from the spec: [Given] appends one provider state; a state given
    by name has no parameters. *)
Definition Given (state : string) (i : Interaction) : Interaction :=
  {| states := states i ++ [ {| name := state; parameters := [] |} ];
     description := description i; request := request i; response := response i |}.

(** Modelled from the spec: [UponReceiving] sets the description. *)
Definition UponReceiving (description : string) (i : Interaction) : Interaction :=
  {| states := states i; description := description;
     request := request i; response := response i |}.

(** Modelled from the spec: [WithRequest] sets the method and the path
    matcher of the request. *)
Definition WithRequest (method : string) (path : matchers.Value) : Interaction -> Interaction :=
  withRequest (fun r =>
    {| method := method; path := path; query := query r;
       requestHeaders := requestHeaders r; requestBody := requestBody r |}).

(** Modelled from the spec: [WithQuery] adds its entries after those already
    present. *)
Definition WithQuery (values : list (string * list matchers.Value)) : Interaction -> Interaction :=
  withRequest (fun r =>
    {| method := method r; path := path r; query := query r ++ values;
       requestHeaders := requestHeaders r; requestBody := requestBody r |}).

(** Modelled from the spec: [WithRequestHeaders] adds its entries after those
    already present. *)
Definition WithRequestHeaders (values : list (string * list matchers.Value)) : Interaction -> Interaction :=
  withRequest (fun r =>
    {| method := method r; path := path r; query := query r;
       requestHeaders := requestHeaders r ++ values; requestBody := requestBody r |}).

(** Modelled from the spec: [WithResponseHeaders] adds its entries after those
    already present. *)
Definition WithResponseHeaders (values : list (string * list matchers.Value)) : Interaction -> Interaction :=
  withResponse (fun r =>
    {| status := status r; responseHeaders := responseHeaders r ++ values;
       responseBody := responseBody r |}).

(** Modelled from the spec: each body method replaces the body of the
    request. *)
Definition WithJSONRequestBody (body : matchers.Value) := setRequestBody (JSONBody body).

(** Modelled from the spec: a binary body for the request. *)
Definition WithBinaryRequestBody (body : list Byte.byte) := setRequestBody (BinaryBody body).

(** Modelled from the spec: a multipart file as the body of the request. *)
Definition WithRequestMultipartFile (contentType filename mimePartName : string) :=
  setRequestBody (MultipartFile contentType filename mimePartName).

(** Modelled from the spec: a body of the given content type for the
    request. *)
Definition WithRequestBody (contentType : string) (body : list Byte.byte) :=
  setRequestBody (RawBody contentType body).

(** Modelled from the spec: each body method replaces the body of the
    response. *)
Definition WithJSONResponseBody (body : matchers.Value) := setResponseBody (JSONBody body).

(** Modelled from the spec: a binary body for the response. *)
Definition WithBinaryResponseBody (body : list Byte.byte) := setResponseBody (BinaryBody body).

(** Modelled from the spec: a multipart file as the body of the response. *)
Definition WithResponseMultipartFile (contentType filename mimePartName : string) :=
  setResponseBody (MultipartFile contentType filename mimePartName).

(** Modelled from the spec: a body of the given content type for the
    response. *)
Definition WithResponseBody (contentType : string) (body : list Byte.byte) :=
  setResponseBody (RawBody contentType body).

(** Modelled from the spec: [WithStatus] sets the status of the response. *)
Definition WithStatus (status : Z) : Interaction -> Interaction :=
  withResponse (fun r =>
    {| status := status; responseHeaders := responseHeaders r;
       responseBody := responseBody r |}).

End mockserver.

(** ** The state the facade runs in *)

(** [servers] holds the mock servers and [store] the native interactions, both
    addressed by position (the pointer); [log] is what [log.Println] wrote. *)
Record World := {
  servers : list mockserver.MockServer;
  store : list mockserver.Interaction;
  log : list string
}.

(** A Go call: it reads and writes the world, and returns or panics. *)
Definition M (A : Type) : Type := World -> Res A * World.

#[global] Instance M_ret : MRet M := fun A a w => (Ok a, w).

#[global] Instance M_bind : MBind M := fun A B f m w =>
  match m w with
  | (Ok a, w') => f a w'
  | (Panic e, w') => (Panic e, w')
  end.

Definition panic {A} (e : Error) : M A := fun w => (Panic e, w).

(** [for _, x := range l { f(x) }] *)
Fixpoint forEach {A} (l : list A) (f : A -> M unit) : M unit :=
  match l with
  | [] => mret tt
  | x :: rest => f x;; forEach rest f
  end.

Definition logPrintln (line : string) : M unit := fun w =>
  (Ok tt, {| servers := servers w; store := store w; log := log w ++ [line] |}).

(** A method call through the pointer [ptr] to a native interaction. *)
Definition call (ptr : nat) (f : mockserver.Interaction -> mockserver.Interaction) : M unit :=
  fun w =>
    match store w !! ptr with
    | Some i => (Ok tt, {| servers := servers w; store := <[ptr := f i]> (store w); log := log w |})
    | None => (Panic NilPointerDereference, w)
    end.

(** Modelled from the spec: [server.NewInteraction(description)] allocates a
    new native interaction and registers it, last, with the mock server
    [server] points to; a nil or dangling [server] panics.  The facade hands
    the mock server nothing after this call, so this is where the interaction
    joins the contract. *)
Definition NewInteraction (server : option nat) (description : string) : M nat :=
  fun w =>
    match server with
    | None => (Panic NilPointerDereference, w)
    | Some s =>
        match servers w !! s with
        | None => (Panic NilPointerDereference, w)
        | Some m =>
            let ptr := length (store w) in
            (Ok ptr,
             {| servers :=
                  <[s := {| mockserver.interactions := mockserver.interactions m ++ [ptr] |}]>
                    (servers w);
                store := store w ++ [mockserver.NewInteraction description];
                log := log w |})
        end
    end.

(** A panic raised while an argument is evaluated. *)
Definition eval {A} (r : Res A) : M A := fun w => (r, w).

(** ** What the facade takes from the packages around it *)

(** [utils.IsJSONFormattedObject], defined outside [http_v2.go]: the facade
    only branches on its answer, so any function will do. *)
Class Utils := { IsJSONFormattedObject : string -> bool }.

(** Modelled from the spec: the configuration of a provider, with the fields
    the consumer test sets. *)
Record MockHTTPProviderConfig := {
  Consumer : string;
  Provider : string;
  Host : string;
  Port : Z;
  TLS : bool
}.

Module httpMockProvider.

(** The fields of [httpMockProvider] the facade uses; [mockserver] is a
    pointer, nil until the provider is configured. *)
Record t := {
  config : MockHTTPProviderConfig;
  specificationVersion : models.SpecificationVersion;
  mockserver : option nat
}.

End httpMockProvider.

(** The methods of the embedded [*httpMockProvider], [configure] and
    [ExecuteTest], and the types of their arguments, are declared outside
    [http_v2.go]; the facade only calls them, so they are kept abstract. *)
Class Runtime := {
  testing_T : Type;
  MockServerConfig : Type;
  httpMockProvider_configure : httpMockProvider.t -> M (httpMockProvider.t * option Error);
  httpMockProvider_ExecuteTest :
    httpMockProvider.t -> testing_T -> (MockServerConfig -> M (option Error)) -> M (option Error)
}.

(** ** The facade *)

(** [V2HTTPMockProvider] embeds the provider.  Its fields are written once, by
    [NewV2Pact], so the pointer to it is modelled by its value. *)
Record V2HTTPMockProvider := { httpMockProvider : httpMockProvider.t }.

(** [NewV2Pact] configures a new V2 HTTP mock provider. *)
Definition NewV2Pact `{Runtime} (config : MockHTTPProviderConfig)
    : M (option V2HTTPMockProvider * option Error) :=
  '(configured, err) ← httpMockProvider_configure
      {| httpMockProvider.config := config;
         httpMockProvider.specificationVersion := models.V2;
         httpMockProvider.mockserver := None |};
  match err with
  | Some e => mret (None, Some e)
  | None => mret (Some {| httpMockProvider := configured |}, err)
  end.

(** [Method] converts to a string with [string(method)]. *)
Definition Method := string.

(** Modelled from the spec: the complete request and response that
    [WithCompleteRequest] and [WithCompleteResponse] take (the two types are
    declared outside [http_v2.go]). *)
Definition Request := mockserver.RequestSpec.
Definition Response := mockserver.ResponseSpec.

Module Interaction.

(** The facade's [Interaction]: the specification version and the pointer to
    the native interaction.  Neither field is assigned after creation. *)
Record t := {
  specificationVersion : models.SpecificationVersion;
  interaction : nat
}.

(** Modelled from the spec: [WithCompleteRequest] installs a whole request at
    once (it is defined outside [http_v2.go]). *)
Definition WithCompleteRequest (i : t) (request : Request) : M unit :=
  call (interaction i) (mockserver.withRequest (fun _ => request)).

(** Modelled from the spec: [WithCompleteResponse] installs a whole response
    at once (it is defined outside [http_v2.go]). *)
Definition WithCompleteResponse (i : t) (response : Response) : M unit :=
  call (interaction i) (mockserver.withResponse (fun _ => response)).

End Interaction.

(** The six handle types of the file are structs with the same two fields,
    [interaction] and [provider]; they differ in the methods they carry.  One
    record indexed by the handle type keeps them apart: a method of one handle
    type does not apply to a handle of another. *)
Inductive HandleKind :=
| KUnconfigured
| KWithRequest
| KWithRequestBuilder
| KWithCompleteRequest
| KWithResponseBuilder
| KWithResponse.

#[global] Instance HandleKind_eq_dec : EqDecision HandleKind.
Proof. solve_decision. Defined.

Record Handle (k : HandleKind) := {
  interaction : Interaction.t;
  provider : V2HTTPMockProvider
}.
Arguments interaction {k} _.
Arguments provider {k} _.

Definition UnconfiguredV2Interaction := Handle KUnconfigured.
Definition V2InteractionWithRequest := Handle KWithRequest.
Definition V2InteractionWithRequestBuilder := Handle KWithRequestBuilder.
Definition V2InteractionWithCompleteRequest := Handle KWithCompleteRequest.
Definition V2InteractionWithResponseBuilder := Handle KWithResponseBuilder.
Definition V2InteractionWithResponse := Handle KWithResponse.

Definition V2RequestBuilder := V2InteractionWithRequestBuilder -> M unit.
Definition V2ResponseBuilder := V2InteractionWithResponseBuilder -> M unit.

(** [i.interaction.interaction]: the pointer to the native interaction. *)
Definition native {k} (i : Handle k) : nat := Interaction.interaction (interaction i).

(** Modelled from the spec: the conversion of one key and its values to the
    native header and query form (it is defined outside [http_v2.go]). *)
Definition keyValuesToMapStringArrayInterface (key : string) (values : list matchers.Value)
    : list (string * list matchers.Value) :=
  [(key, values)].

(** Modelled from the spec: the conversion of a headers matcher to the native
    header form (it is defined outside [http_v2.go]). *)
Definition headersMatcherToNativeHeaders (headers : matchers.HeadersMatcher)
    : list (string * list matchers.Value) :=
  headers.

Module V2HTTPMockProvider.

(** [AddInteraction] to the pact. *)
Definition AddInteraction (p : V2HTTPMockProvider) : M UnconfiguredV2Interaction :=
  logPrintln "[DEBUG] pact add V2 interaction";;
  interaction ← NewInteraction (httpMockProvider.mockserver (httpMockProvider p)) "";
  mret ({| interaction :=
             {| Interaction.specificationVersion := models.V2;
                Interaction.interaction := interaction |};
           provider := p |} : UnconfiguredV2Interaction).

(** [ExecuteTest], promoted from the embedded [*httpMockProvider]. *)
Definition ExecuteTest `{Runtime} (p : V2HTTPMockProvider) (t : testing_T)
    (integrationTest : MockServerConfig -> M (option Error)) : M (option Error) :=
  httpMockProvider_ExecuteTest (httpMockProvider p) t integrationTest.

End V2HTTPMockProvider.

Module UnconfiguredV2Interaction.

(** [Given] specifies a provider state, may be called multiple times.
    Optional. *)
Definition Given (i : UnconfiguredV2Interaction) (state : string) : M UnconfiguredV2Interaction :=
  call (native i) (mockserver.Given state);;
  mret i.

(** [UponReceiving] specifies the name of the test case.  Mandatory. *)
Definition UponReceiving (i : UnconfiguredV2Interaction) (description : string)
    : M UnconfiguredV2Interaction :=
  call (native i) (mockserver.UponReceiving description);;
  mret i.

Definition WithCompleteRequest (i : UnconfiguredV2Interaction) (request : Request)
    : M V2InteractionWithCompleteRequest :=
  Interaction.WithCompleteRequest (interaction i) request;;
  mret ({| interaction := interaction i; provider := provider i |}
          : V2InteractionWithCompleteRequest).

(** [WithRequestPathMatcher] allows a matcher in the expected request path. *)
Definition WithRequestPathMatcher (i : UnconfiguredV2Interaction) (method : Method)
    (path : matchers.Matcher) (builders : list V2RequestBuilder) : M V2InteractionWithRequest :=
  call (native i) (mockserver.WithRequest method path);;
  forEach builders (fun builder =>
    builder ({| interaction := interaction i; provider := provider i |}
               : V2InteractionWithRequestBuilder));;
  mret ({| interaction := interaction i; provider := provider i |}
          : V2InteractionWithRequest).

(** [WithRequest] provides a builder for the expected request. *)
Definition WithRequest (i : UnconfiguredV2Interaction) (method : Method) (path : string)
    (builders : list V2RequestBuilder) : M V2InteractionWithRequest :=
  WithRequestPathMatcher i method (matchers.String path) builders.

End UnconfiguredV2Interaction.

Module V2InteractionWithCompleteRequest.

Definition WithCompleteResponse (i : V2InteractionWithCompleteRequest) (response : Response)
    : M V2InteractionWithResponse :=
  Interaction.WithCompleteResponse (interaction i) response;;
  mret ({| interaction := interaction i; provider := provider i |}
          : V2InteractionWithResponse).

End V2InteractionWithCompleteRequest.

Definition requestBodyWarning : string :=
  "[WARN] request body appears to be a JSON formatted object, " +:+
  "no matching will occur. Support for structured strings has been" +:+
  "deprecated as of 0.13.0. Please use the JSON() method instead".

Definition responseBodyWarning : string :=
  "[WARN] response body appears to be a JSON formatted object, " +:+
  "no matching will occur. Support for structured strings has been" +:+
  "deprecated as of 0.13.0. Please use the JSON() method instead".

Module V2InteractionWithRequestBuilder.

(** [Query] specifies any query string on the expected request. *)
Definition Query (i : V2InteractionWithRequestBuilder) (key : string)
    (values : list matchers.Matcher) : M V2InteractionWithRequestBuilder :=
  call (native i) (mockserver.WithQuery (keyValuesToMapStringArrayInterface key values));;
  mret i.

(** [Header] adds a header to the expected request. *)
Definition Header (i : V2InteractionWithRequestBuilder) (key : string)
    (values : list matchers.Matcher) : M V2InteractionWithRequestBuilder :=
  call (native i) (mockserver.WithRequestHeaders (keyValuesToMapStringArrayInterface key values));;
  mret i.

(** [Headers] sets the headers on the expected request. *)
Definition Headers (i : V2InteractionWithRequestBuilder) (headers : matchers.HeadersMatcher)
    : M V2InteractionWithRequestBuilder :=
  call (native i) (mockserver.WithRequestHeaders (headersMatcherToNativeHeaders headers));;
  mret i.

(** [JSONBody] adds a JSON body to the expected request. *)
Definition JSONBody `{Utils} (i : V2InteractionWithRequestBuilder) (body : matchers.Value)
    : M V2InteractionWithRequestBuilder :=
  match validateMatchers (Interaction.specificationVersion (interaction i)) body with
  | Some err => panic err
  | None =>
      match body with
      | matchers.VString s =>
          if IsJSONFormattedObject s then logPrintln requestBodyWarning else mret tt
      | _ => mret tt
      end;;
      call (native i) (mockserver.WithJSONRequestBody body);;
      mret i
  end.

(** [BinaryBody] adds a binary body to the expected request. *)
Definition BinaryBody (i : V2InteractionWithRequestBuilder) (body : list Byte.byte)
    : M V2InteractionWithRequestBuilder :=
  call (native i) (mockserver.WithBinaryRequestBody body);;
  mret i.

(** [MultipartBody] adds a multipart body to the expected request. *)
Definition MultipartBody (i : V2InteractionWithRequestBuilder)
    (contentType filename mimePartName : string) : M V2InteractionWithRequestBuilder :=
  call (native i) (mockserver.WithRequestMultipartFile contentType filename mimePartName);;
  mret i.

(** [Body] adds general body to the expected request. *)
Definition Body `{Utils} (i : V2InteractionWithRequestBuilder) (contentType : string)
    (body : list Byte.byte) : M V2InteractionWithRequestBuilder :=
  (if IsJSONFormattedObject (String.string_of_list_byte body)
   then logPrintln requestBodyWarning else mret tt);;
  call (native i) (mockserver.WithRequestBody contentType body);;
  mret i.

(** [BodyMatch] uses struct tags to automatically determine matchers from
    the given struct. *)
Definition BodyMatch (i : V2InteractionWithRequestBuilder) (body : matchers.GoType)
    : M V2InteractionWithRequestBuilder :=
  m ← eval (matchers.MatchV2 body);
  call (native i) (mockserver.WithJSONRequestBody m);;
  mret i.

End V2InteractionWithRequestBuilder.

Module V2InteractionWithRequest.

(** [WillRespondWith] sets the expected status and provides a response
    builder. *)
Definition WillRespondWith (i : V2InteractionWithRequest) (status : Z)
    (builders : list V2ResponseBuilder) : M V2InteractionWithResponse :=
  call (native i) (mockserver.WithStatus status);;
  forEach builders (fun builder =>
    builder ({| interaction := interaction i; provider := provider i |}
               : V2InteractionWithResponseBuilder));;
  mret ({| interaction := interaction i; provider := provider i |}
          : V2InteractionWithResponse).

End V2InteractionWithRequest.

Module V2InteractionWithResponseBuilder.

(** [Header] adds a header to the expected response. *)
Definition Header (i : V2InteractionWithResponseBuilder) (key : string)
    (values : list matchers.Matcher) : M V2InteractionWithResponseBuilder :=
  call (native i) (mockserver.WithResponseHeaders (keyValuesToMapStringArrayInterface key values));;
  mret i.

(** [Headers] sets the headers on the expected response. *)
Definition Headers (i : V2InteractionWithResponseBuilder) (headers : matchers.HeadersMatcher)
    : M V2InteractionWithResponseBuilder :=
  call (native i) (mockserver.WithResponseHeaders (headersMatcherToNativeHeaders headers));;
  mret i.

(** [JSONBody] adds a JSON body to the expected response. *)
Definition JSONBody `{Utils} (i : V2InteractionWithResponseBuilder) (body : matchers.Value)
    : M V2InteractionWithResponseBuilder :=
  match validateMatchers (Interaction.specificationVersion (interaction i)) body with
  | Some err => panic err
  | None =>
      match body with
      | matchers.VString s =>
          if IsJSONFormattedObject s then logPrintln responseBodyWarning else mret tt
      | _ => mret tt
      end;;
      call (native i) (mockserver.WithJSONResponseBody body);;
      mret i
  end.

(** [BinaryBody] adds a binary body to the expected response. *)
Definition BinaryBody (i : V2InteractionWithResponseBuilder) (body : list Byte.byte)
    : M V2InteractionWithResponseBuilder :=
  call (native i) (mockserver.WithBinaryResponseBody body);;
  mret i.

(** [MultipartBody] adds a multipart body to the expected response. *)
Definition MultipartBody (i : V2InteractionWithResponseBuilder)
    (contentType filename mimePartName : string) : M V2InteractionWithResponseBuilder :=
  call (native i) (mockserver.WithResponseMultipartFile contentType filename mimePartName);;
  mret i.

(** [Body] adds general body to the expected response; it logs nothing. *)
Definition Body (i : V2InteractionWithResponseBuilder) (contentType : string)
    (body : list Byte.byte) : M V2InteractionWithResponseBuilder :=
  call (native i) (mockserver.WithResponseBody contentType body);;
  mret i.

(** [BodyMatch] uses struct tags to automatically determine matchers from
    the given struct. *)
Definition BodyMatch (i : V2InteractionWithResponseBuilder) (body : matchers.GoType)
    : M V2InteractionWithResponseBuilder :=
  m ← eval (matchers.MatchV2 body);
  call (native i) (mockserver.WithJSONResponseBody m);;
  mret i.

End V2InteractionWithResponseBuilder.

Module V2InteractionWithResponse.

(** [ExecuteTest] runs the current test case against a Mock Service. *)
Definition ExecuteTest `{Runtime} (m : V2InteractionWithResponse) (t : testing_T)
    (integrationTest : MockServerConfig -> M (option Error)) : M (option Error) :=
  V2HTTPMockProvider.ExecuteTest (provider m) t integrationTest.

End V2InteractionWithResponse.

(** ** Fluent chains

    A chain [h.A(..).B(..)] is a list of method calls.  Go resolves each name
    in the method set of the static type of the receiver, and a chain that
    names a method the receiver's type lacks is not a program: [resolve] is
    that method-set lookup, and [compose] builds the program of a chain when
    every call of it resolves.  The steps are the methods that return a
    handle; [ExecuteTest], which returns an [error], joins them in
    [Expression] below. *)

Module Chain.

Inductive Step :=
| Given (state : string)
| UponReceiving (description : string)
| WithCompleteRequest (request : Request)
| WithCompleteResponse (response : Response)
| WithRequest (method : Method) (path : string) (builders : list V2RequestBuilder)
| WithRequestPathMatcher (method : Method) (path : matchers.Matcher)
    (builders : list V2RequestBuilder)
| WillRespondWith (status : Z) (builders : list V2ResponseBuilder)
| Query (key : string) (values : list matchers.Matcher)
| Header (key : string) (values : list matchers.Matcher)
| Headers (headers : matchers.HeadersMatcher)
| JSONBody (body : matchers.Value)
| BinaryBody (body : list Byte.byte)
| MultipartBody (contentType filename mimePartName : string)
| Body (contentType : string) (body : list Byte.byte)
| BodyMatch (body : matchers.GoType).

(** A method found on a receiver of type [Handle k]: the type of the handle
    it returns, and what it does. *)
Definition Resolved (k : HandleKind) : Type :=
  { k' : HandleKind & Handle k -> M (Handle k') }.

Definition found {k} (k' : HandleKind) (f : Handle k -> M (Handle k')) : option (Resolved k) :=
  Some (existT k' f).

Definition resolve `{Utils} (k : HandleKind) (s : Step) : option (Resolved k) :=
  match k, s with
  | KUnconfigured, Given state =>
      found KUnconfigured (fun i => UnconfiguredV2Interaction.Given i state)
  | KUnconfigured, UponReceiving description =>
      found KUnconfigured (fun i => UnconfiguredV2Interaction.UponReceiving i description)
  | KUnconfigured, WithCompleteRequest request =>
      found KWithCompleteRequest (fun i => UnconfiguredV2Interaction.WithCompleteRequest i request)
  | KUnconfigured, WithRequest method path builders =>
      found KWithRequest (fun i => UnconfiguredV2Interaction.WithRequest i method path builders)
  | KUnconfigured, WithRequestPathMatcher method path builders =>
      found KWithRequest
        (fun i => UnconfiguredV2Interaction.WithRequestPathMatcher i method path builders)
  | KWithCompleteRequest, WithCompleteResponse response =>
      found KWithResponse
        (fun i => V2InteractionWithCompleteRequest.WithCompleteResponse i response)
  | KWithRequest, WillRespondWith status builders =>
      found KWithResponse (fun i => V2InteractionWithRequest.WillRespondWith i status builders)
  | KWithRequestBuilder, Query key values =>
      found KWithRequestBuilder (fun i => V2InteractionWithRequestBuilder.Query i key values)
  | KWithRequestBuilder, Header key values =>
      found KWithRequestBuilder (fun i => V2InteractionWithRequestBuilder.Header i key values)
  | KWithRequestBuilder, Headers headers =>
      found KWithRequestBuilder (fun i => V2InteractionWithRequestBuilder.Headers i headers)
  | KWithRequestBuilder, JSONBody body =>
      found KWithRequestBuilder (fun i => V2InteractionWithRequestBuilder.JSONBody i body)
  | KWithRequestBuilder, BinaryBody body =>
      found KWithRequestBuilder (fun i => V2InteractionWithRequestBuilder.BinaryBody i body)
  | KWithRequestBuilder, MultipartBody contentType filename mimePartName =>
      found KWithRequestBuilder
        (fun i => V2InteractionWithRequestBuilder.MultipartBody i contentType filename mimePartName)
  | KWithRequestBuilder, Body contentType body =>
      found KWithRequestBuilder (fun i => V2InteractionWithRequestBuilder.Body i contentType body)
  | KWithRequestBuilder, BodyMatch body =>
      found KWithRequestBuilder (fun i => V2InteractionWithRequestBuilder.BodyMatch i body)
  | KWithResponseBuilder, Header key values =>
      found KWithResponseBuilder (fun i => V2InteractionWithResponseBuilder.Header i key values)
  | KWithResponseBuilder, Headers headers =>
      found KWithResponseBuilder (fun i => V2InteractionWithResponseBuilder.Headers i headers)
  | KWithResponseBuilder, JSONBody body =>
      found KWithResponseBuilder (fun i => V2InteractionWithResponseBuilder.JSONBody i body)
  | KWithResponseBuilder, BinaryBody body =>
      found KWithResponseBuilder (fun i => V2InteractionWithResponseBuilder.BinaryBody i body)
  | KWithResponseBuilder, MultipartBody contentType filename mimePartName =>
      found KWithResponseBuilder
        (fun i => V2InteractionWithResponseBuilder.MultipartBody i contentType filename mimePartName)
  | KWithResponseBuilder, Body contentType body =>
      found KWithResponseBuilder (fun i => V2InteractionWithResponseBuilder.Body i contentType body)
  | KWithResponseBuilder, BodyMatch body =>
      found KWithResponseBuilder (fun i => V2InteractionWithResponseBuilder.BodyMatch i body)
  | _, _ => None
  end.

(** The program of a chain on a receiver of type [Handle k], or [None] when
    some call of the chain does not resolve. *)
Fixpoint compose `{Utils} (k : HandleKind) (steps : list Step) : option (Resolved k) :=
  match steps with
  | [] => found k mret
  | s :: rest =>
      match resolve k s with
      | None => None
      | Some (existT k1 f) =>
          match compose k1 rest with
          | None => None
          | Some (existT k2 g) => found k2 (fun i => i1 ← f i; g i1)
          end
      end
  end.

(** Running a chain on a handle [i] in a world [w]; there is no run of a
    chain that is no program. *)
Definition run `{Utils} {k} (steps : list Step) (i : Handle k) (w : World)
    : option (Res { k' : HandleKind & Handle k' } * World) :=
  match compose k steps with
  | None => None
  | Some (existT k' f) => Some ((h ← f i; mret (existT k' h)) w)
  end.

(** The type of the handle one call returns. *)
Definition returns `{Utils} (k : HandleKind) (s : Step) : option HandleKind :=
  projT1 <$> resolve k s.

(** The type of the handle a chain returns. *)
Definition kindAfter `{Utils} (k : HandleKind) (steps : list Step) : option HandleKind :=
  projT1 <$> compose k steps.

Definition isWithRequest (s : Step) : bool :=
  match s with
  | WithRequest _ _ _ | WithRequestPathMatcher _ _ _ => true
  | _ => false
  end.

Definition isGivenOrUponReceiving (s : Step) : bool :=
  match s with
  | Given _ | UponReceiving _ => true
  | _ => false
  end.

(** The place of a handle type in the builder order: the unconfigured
    interaction, the request (its builder, or the complete request), the
    response builder, the complete interaction. *)
Definition stage (k : HandleKind) : nat :=
  match k with
  | KUnconfigured => 0
  | KWithRequestBuilder => 1
  | KWithRequest | KWithCompleteRequest => 2
  | KWithResponseBuilder => 3
  | KWithResponse => 4
  end.

(** The handle types a chain can hold before the request is described with
    [WithRequest] or [WithRequestPathMatcher]; [KWithRequest] is the one
    type those two methods return. *)
Definition awayFromRequest (k : HandleKind) : bool :=
  match k with
  | KWithRequest => false
  | _ => true
  end.

(** A resolved method, or chain, hands back the interaction and the provider
    of its receiver. *)
Definition keepsHandle {k} (r : Resolved k) : Prop :=
  forall (i : Handle k) (w w' : World) (i' : Handle (projT1 r)),
    projT2 r i w = (Ok i', w') ->
    interaction i' = interaction i /\ provider i' = provider i.

End Chain.

(** ** Chained expressions, [ExecuteTest] included

    [Chain] has the methods that return a handle.  The complete handle has one
    more method, [ExecuteTest], which returns an [error]; an [error] has none
    of the methods of this file, so nothing of the facade chains after it.
    An expression is a list of calls, each a handle-returning method or
    [ExecuteTest], and its static type is a handle type or [error]. *)

Module Expression.

Inductive Ty :=
| THandle (k : HandleKind)
| TError.

(** The values of a static type; Go's [nil] error is [None]. *)
Definition valueOf (ty : Ty) : Type :=
  match ty with
  | THandle k => Handle k
  | TError => option Error
  end.

Inductive Call `{Runtime} :=
| Method (s : Chain.Step)
| ExecuteTest (t : testing_T) (integrationTest : MockServerConfig -> M (option Error)).

(** A call found on a receiver of static type [ty]: the type of what it
    returns, and what it does. *)
Definition Resolved (ty : Ty) : Type :=
  { ty' : Ty & valueOf ty -> M (valueOf ty') }.

(** The method-set lookup of [Chain.resolve], with [ExecuteTest] on the
    complete handle. *)
Definition resolve `{Utils} `{Runtime} (ty : Ty) (c : Call) : option (Resolved ty) :=
  match ty return option (Resolved ty) with
  | THandle k =>
      match c with
      | Method s =>
          match Chain.resolve k s with
          | Some (existT k' f) => Some (existT (THandle k') f)
          | None => None
          end
      | ExecuteTest t integrationTest =>
          match k return option (Resolved (THandle k)) with
          | KWithResponse =>
              Some (existT TError
                      (fun m => V2InteractionWithResponse.ExecuteTest m t integrationTest))
          | _ => None
          end
      end
  | TError => None
  end.

(** The program of an expression on a receiver of static type [ty], or [None]
    when some call of it does not resolve. *)
Fixpoint compose `{Utils} `{Runtime} (ty : Ty) (calls : list Call) : option (Resolved ty) :=
  match calls with
  | [] => Some (existT ty mret)
  | c :: rest =>
      match resolve ty c with
      | None => None
      | Some (existT ty1 f) =>
          match compose ty1 rest with
          | None => None
          | Some (existT ty2 g) => Some (existT ty2 (fun v => v1 ← f v; g v1))
          end
      end
  end.

(** The static type one call returns. *)
Definition returns `{Utils} `{Runtime} (ty : Ty) (c : Call) : option Ty :=
  projT1 <$> resolve ty c.

(** The static type of an expression. *)
Definition typeAfter `{Utils} `{Runtime} (ty : Ty) (calls : list Call) : option Ty :=
  projT1 <$> compose ty calls.

End Expression.

(** What a run left at the end of a pointer. *)
Definition deref (w : World) (ptr : nat) : option mockserver.Interaction := store w !! ptr.

(** The interactions registered with the mock server of a provider, in
    registration order: the contract under construction. *)
Definition aggregate (w : World) (p : V2HTTPMockProvider) : list mockserver.Interaction :=
  match httpMockProvider.mockserver (httpMockProvider p) with
  | None => []
  | Some s =>
      match servers w !! s with
      | None => []
      | Some m => omap (deref w) (mockserver.interactions m)
      end
  end.

(** ** A sample run

    The world after [NewV2Pact]: one mock server, no interaction yet. *)

Module Sample.

Definition world : World :=
  {| servers := [ {| mockserver.interactions := [] |} ]; store := []; log := [] |}.

Definition pact : V2HTTPMockProvider :=
  {| httpMockProvider :=
       {| httpMockProvider.config :=
            {| Consumer := "V2Consumer"; Provider := "V2Provider";
               Host := "127.0.0.1"; Port := 8080; TLS := true |};
          httpMockProvider.specificationVersion := models.V2;
          httpMockProvider.mockserver := Some 0 |} |}.

(** A JSON check that takes a string that opens with a brace for an
    object. *)
Definition utils : Utils :=
  {| IsJSONFormattedObject := fun s =>
       match s with
       | String.String (Ascii.Ascii true true false true true true true false) _ => true
       | _ => false
       end |}.

(** A runtime whose [ExecuteTest] runs the integration test once. *)
Definition runtime : Runtime :=
  {| testing_T := unit;
     MockServerConfig := Z;
     httpMockProvider_configure := fun p => mret (p, None);
     httpMockProvider_ExecuteTest := fun p _ integrationTest =>
       integrationTest (Port (httpMockProvider.config p)) |}.

(** The [User] record of the consumer test, behind a pointer. *)
Definition tagged (e : matchers.Value) : matchers.FieldTag :=
  {| matchers.example := Some e; matchers.format := None; matchers.generator := None |}.


(** The same record with no generator on its date, as a V2 contract can
    take it. *)
Definition UserV2 : matchers.GoType :=
  matchers.TPtr (matchers.TStruct
    [ ("id", tagged (matchers.VInt 27), matchers.TInt);
      ("name", tagged (matchers.VString "Billy"), matchers.TString);
      ("lastName", tagged (matchers.VString "Sampson"), matchers.TString);
      ("datetime", tagged (matchers.VString "2020-01-01'T'08:00:45"), matchers.TString) ]).

(** The world once [pact.AddInteraction()] has run, and the handles on that
    interaction. *)
Definition registered : World :=
  {| servers := [ {| mockserver.interactions := [0] |} ];
     store := [ mockserver.NewInteraction "" ];
     log := [ "[DEBUG] pact add V2 interaction" ] |}.

Definition handle (k : HandleKind) : Handle k :=
  {| interaction :=
       {| Interaction.specificationVersion := models.V2; Interaction.interaction := 0 |};
     provider := pact |}.

(** The builders of the consumer test. *)
Definition requestBuilder : V2RequestBuilder := fun b =>
  b ← V2InteractionWithRequestBuilder.Header b "Content-Type" [matchers.String "application/json"];
  b ← V2InteractionWithRequestBuilder.Query b "baz"
        [matchers.Regex "bar" "[a-z]+"; matchers.Regex "bat" "[a-z]+"];
  @V2InteractionWithRequestBuilder.JSONBody utils b
    (matchers.VMap [("id", matchers.TypeLike (matchers.VInt 27))]);;
  mret tt.

Definition responseBuilder : V2ResponseBuilder := fun b =>
  V2InteractionWithResponseBuilder.BodyMatch b UserV2;;
  mret tt.

(** Running a chain on a fresh interaction of [pact]:
    [pact.AddInteraction().A(..).B(..)]. *)
Definition run `{Utils} (steps : list Chain.Step) : option (Res {k & Handle k} * World) :=
  match Chain.compose KUnconfigured steps with
  | None => None
  | Some (existT k f) =>
      Some ((i ← V2HTTPMockProvider.AddInteraction pact; h ← f i; mret (existT k h)) world)
  end.

End Sample.

(** Two runs agree up to the log: same outcome, same mock servers, same
    interactions. *)
Definition agreeUpToLog {A} (a b : Res A * World) : Prop :=
  fst a = fst b /\ servers (snd a) = servers (snd b) /\ store (snd a) = store (snd b).

(** What a method leaves when all it does is one change of its interaction. *)
Definition updated (w : World) (ptr : nat) (i : mockserver.Interaction) : World :=
  {| servers := servers w; store := <[ptr := i]> (store w); log := log w |}.

(** The provider states a sequence of [Given] calls by name stands for. *)
Definition namedStates (names : list string) : list mockserver.ProviderState :=
  map (fun n => {| mockserver.name := n; mockserver.parameters := [] |}) names.

(** ** The shape of chains, and what a method may touch *)

(** The chains that build a complete interaction, read off the method sets:
    any run of [Given] and [UponReceiving], then either [WithRequest] or
    [WithRequestPathMatcher] followed by [WillRespondWith], or
    [WithCompleteRequest] followed by [WithCompleteResponse]. *)
Inductive CompleteChain : list Chain.Step -> Prop :=
| Complete_Given state rest :
    CompleteChain rest -> CompleteChain (Chain.Given state :: rest)
| Complete_UponReceiving description rest :
    CompleteChain rest -> CompleteChain (Chain.UponReceiving description :: rest)
| Complete_WithRequest method path builders status builders' :
    CompleteChain
      [Chain.WithRequest method path builders; Chain.WillRespondWith status builders']
| Complete_WithRequestPathMatcher method path builders status builders' :
    CompleteChain
      [Chain.WithRequestPathMatcher method path builders; Chain.WillRespondWith status builders']
| Complete_WithCompleteRequest request response :
    CompleteChain [Chain.WithCompleteRequest request; Chain.WithCompleteResponse response].

(** The methods of [V2InteractionWithRequestBuilder]. *)
Definition isRequestBuilderMethod (s : Chain.Step) : bool :=
  match s with
  | Chain.Query _ _ | Chain.Header _ _ | Chain.Headers _ | Chain.JSONBody _
  | Chain.BinaryBody _ | Chain.MultipartBody _ _ _ | Chain.Body _ _ | Chain.BodyMatch _ => true
  | _ => false
  end.

(** The methods of [V2InteractionWithResponseBuilder]: those of the request
    builder but [Query]. *)
Definition isResponseBuilderMethod (s : Chain.Step) : bool :=
  match s with
  | Chain.Header _ _ | Chain.Headers _ | Chain.JSONBody _
  | Chain.BinaryBody _ | Chain.MultipartBody _ _ _ | Chain.Body _ _ | Chain.BodyMatch _ => true
  | _ => false
  end.

(** [touchesOnly ptr m]: whatever the world and whatever the outcome, [m]
    leaves the mock servers as they were, allocates nothing, changes no
    interaction but the one at [ptr], and only adds lines to the log. *)
Definition touchesOnly {A} (ptr : nat) (m : M A) : Prop :=
  forall (w : World),
    servers (snd (m w)) = servers w
    /\ length (store (snd (m w))) = length (store w)
    /\ (forall q, q <> ptr -> deref (snd (m w)) q = deref w q)
    /\ (exists lines, log (snd (m w)) = log w ++ lines).

(** The builders a call takes keep to the interaction of the handle they are
    given. *)
Definition buildersTouchOnly (s : Chain.Step) (it : Interaction.t) (p : V2HTTPMockProvider)
    : Prop :=
  match s with
  | Chain.WithRequest _ _ builders | Chain.WithRequestPathMatcher _ _ builders =>
      Forall (fun b : V2RequestBuilder =>
                touchesOnly (Interaction.interaction it)
                  (b ({| interaction := it; provider := p |} : V2InteractionWithRequestBuilder)))
             builders
  | Chain.WillRespondWith _ builders =>
      Forall (fun b : V2ResponseBuilder =>
                touchesOnly (Interaction.interaction it)
                  (b ({| interaction := it; provider := p |} : V2InteractionWithResponseBuilder)))
             builders
  | _ => True
  end.

(** * Properties *)

(** ** The monad *)

Lemma bind_unfold {A B} (m : M A) (f : A -> M B) (w : World) :
  (m ≫= f) w =
  match m w with
  | (Ok a, w') => f a w'
  | (Panic e, w') => (Panic e, w')
  end.
Proof. reflexivity. Qed.

Lemma bind_Ok {A B} (m : M A) (f : A -> M B) (w w' : World) (b : B) :
  (m ≫= f) w = (Ok b, w') ->
  exists a w1, m w = (Ok a, w1) /\ f a w1 = (Ok b, w').
Proof.
  rewrite bind_unfold. destruct (m w) as [[a|e] w1]; intros E.
  - exists a, w1. split; [reflexivity | exact E].
  - discriminate E.
Qed.

Lemma bind_assoc {A B C} (m : M A) (f : A -> M B) (g : B -> M C) (w : World) :
  ((m ≫= f) ≫= g) w = (m ≫= (fun a => f a ≫= g)) w.
Proof.
  rewrite !bind_unfold. destruct (m w) as [[a|e] w1]; reflexivity.
Qed.

Lemma bind_ext {A B} (m : M A) (f g : A -> M B) (w : World) :
  (forall a w1, f a w1 = g a w1) -> (m ≫= f) w = (m ≫= g) w.
Proof.
  intros E. rewrite !bind_unfold. destruct (m w) as [[a|e] w1]; [apply E | reflexivity].
Qed.

Lemma forEach_app {A} (l1 l2 : list A) (f : A -> M unit) (w : World) :
  forEach (l1 ++ l2) f w = (forEach l1 f;; forEach l2 f) w.
Proof.
  revert w. induction l1 as [|x l1 IH]; intros w; simpl.
  - reflexivity.
  - rewrite bind_assoc. apply bind_ext. intros _ w1. apply IH.
Qed.

(** A call through a valid pointer returns, and changes that interaction
    only. *)
Lemma call_valid ptr f w i :
  store w !! ptr = Some i ->
  call ptr f w =
  (Ok tt, {| servers := servers w; store := <[ptr := f i]> (store w); log := log w |}).
Proof. intros E. unfold call. rewrite E. reflexivity. Qed.

Lemma call_dangling ptr f w :
  store w !! ptr = None -> call ptr f w = (Panic NilPointerDereference, w).
Proof. intros E. unfold call. rewrite E. reflexivity. Qed.

(** ** Values and the version check *)

(** Induction on a value through all of its children. *)
Lemma Value_children_ind (P : matchers.Value -> Prop) :
  (forall v, Forall P (matchers.children v) -> P v) -> forall v, P v.
Proof.
  intros step.
  exact (fix induct (v : matchers.Value) : P v :=
    step v
      (match v return Forall P (matchers.children v) with
       | matchers.VSlice vs | matchers.ArrayContaining vs =>
           (fix each (l : list matchers.Value) : Forall P l :=
              match l with
              | [] => @List.Forall_nil _ P
              | x :: rest => @List.Forall_cons _ P x rest (induct x) (each rest)
              end) vs
       | matchers.VMap kvs =>
           (fix each (l : list (string * matchers.Value)) : Forall P (map snd l) :=
              match l with
              | [] => @List.Forall_nil _ P
              | kv :: rest =>
                  @List.Forall_cons _ P (snd kv) (map snd rest) (induct (snd kv)) (each rest)
              end) kvs
       | matchers.Equality c | matchers.TypeLike c
       | matchers.ArrayMinLike c _ | matchers.ArrayMaxLike c _
       | matchers.ArrayMinMaxLike c _ _ =>
           @List.Forall_cons _ P c [] (induct c) (@List.Forall_nil _ P)
       | _ => @List.Forall_nil _ P
       end)).
Qed.

Lemma existsb_map_snd {A B} (f : B -> bool) (l : list (A * B)) :
  existsb (fun kv => f (snd kv)) l = existsb f (map snd l).
Proof. induction l as [|kv l IH]; simpl; [reflexivity | now rewrite IH]. Qed.

(** The check looks at the value itself and at every child. *)
Lemma tooNew_children version v :
  matchers.tooNew version v =
  negb (models.leb (matchers.minimumVersion v) version)
  || existsb (matchers.tooNew version) (matchers.children v).
Proof.
  destruct v; simpl; try reflexivity;
    try (now rewrite ?orb_false_r);
    try (now rewrite existsb_map_snd).
Qed.

Lemma tooNew_Contains version body r :
  matchers.Contains body r ->
  models.leb (matchers.minimumVersion r) version = false ->
  matchers.tooNew version body = true.
Proof.
  intros C N. induction C as [v | v c r I C IH].
  - rewrite tooNew_children, N. reflexivity.
  - rewrite tooNew_children. apply orb_true_iff. right.
    apply existsb_exists. exists c. split; [exact I | exact (IH N)].
Qed.

(** Conversely, a refused body holds a rule that is too new. *)
Lemma tooNew_witness version body :
  matchers.tooNew version body = true ->
  exists r, matchers.Contains body r /\
            models.leb (matchers.minimumVersion r) version = false.
Proof.
  induction body as [v IH] using Value_children_ind. intros T.
  rewrite tooNew_children in T. apply orb_true_iff in T. destruct T as [T | T].
  - exists v. split; [constructor | now apply negb_true_iff].
  - apply existsb_exists in T. destruct T as [c [I T]].
    rewrite List.Forall_forall in IH. destruct (IH c I T) as [r [C N]].
    exists r. split; [econstructor; eassumption | exact N].
Qed.

Lemma tooNew_V3 v : matchers.tooNew models.V3 v = false.
Proof.
  destruct (matchers.tooNew models.V3 v) eqn:T; [|reflexivity].
  apply tooNew_witness in T. destruct T as [r [_ N]].
  destruct r; discriminate N.
Qed.

Lemma validateMatchers_string version s :
  validateMatchers version (matchers.VString s) = None.
Proof. destruct version; reflexivity. Qed.

(** ** Typed records and [MatchV2] *)








(** ** Bodies *)

(** C2. On an interaction of specification version V2, [JSONBody] given a body
    that holds, at any depth, a rule that needs V3 (as [FromProviderState] and
    [DateTimeGenerated] do) panics at once with
    [UnsupportedForSpecVersionError], on the request builder and on the
    response builder, and leaves the world as it was.  The refusal comes from
    the version of the interaction the body is attached to, not from the rule:
    the same body passes the check at V3. *)
Theorem JSONBody_refuses_newer_rules `{Utils}
    (request : V2InteractionWithRequestBuilder) (response : V2InteractionWithResponseBuilder)
    (body r : matchers.Value) (w : World) :
  Interaction.specificationVersion (interaction request) = models.V2 ->
  Interaction.specificationVersion (interaction response) = models.V2 ->
  matchers.Contains body r ->
  matchers.minimumVersion r = models.V3 ->
  V2InteractionWithRequestBuilder.JSONBody request body w
    = (Panic UnsupportedForSpecVersionError, w)
  /\ V2InteractionWithResponseBuilder.JSONBody response body w
    = (Panic UnsupportedForSpecVersionError, w)
  /\ validateMatchers models.V3 body = None.
Proof.
  intros Vq Vp C N.
  assert (T : matchers.tooNew models.V2 body = true).
  { apply (tooNew_Contains _ _ r C). rewrite N. reflexivity. }
  unfold V2InteractionWithRequestBuilder.JSONBody, V2InteractionWithResponseBuilder.JSONBody,
    validateMatchers.
  rewrite Vq, Vp, T, tooNew_V3. repeat split; reflexivity.
Qed.



(** C10. A string body that passes the matcher check is registered by
    [JSONBody], on either builder, exactly as the native call alone would
    register it, and so is any body passed to [Body]: same outcome, same mock
    servers, same interactions, whatever [IsJSONFormattedObject] answers.  The
    answer decides one thing only, whether the deprecation warning is added to
    the log; [Body] on the response builder does not ask. *)
Theorem JSON_object_check_only_warns (U : Utils)
    (request : V2InteractionWithRequestBuilder) (response : V2InteractionWithResponseBuilder)
    (s contentType : string) (body : list Byte.byte) (w : World) :
  validateMatchers (Interaction.specificationVersion (interaction request))
    (matchers.VString s) = None ->
  validateMatchers (Interaction.specificationVersion (interaction response))
    (matchers.VString s) = None ->
  let warned (line : string) (flag : bool) := log w ++ (if flag then [line] else []) in
  (agreeUpToLog
     (V2InteractionWithRequestBuilder.JSONBody request (matchers.VString s) w)
     ((call (native request) (mockserver.WithJSONRequestBody (matchers.VString s));;
       mret request) w)
   /\ log (snd (V2InteractionWithRequestBuilder.JSONBody request (matchers.VString s) w))
      = warned requestBodyWarning (IsJSONFormattedObject s))
  /\ (agreeUpToLog
     (V2InteractionWithResponseBuilder.JSONBody response (matchers.VString s) w)
     ((call (native response) (mockserver.WithJSONResponseBody (matchers.VString s));;
       mret response) w)
   /\ log (snd (V2InteractionWithResponseBuilder.JSONBody response (matchers.VString s) w))
      = warned responseBodyWarning (IsJSONFormattedObject s))
  /\ (agreeUpToLog
     (V2InteractionWithRequestBuilder.Body request contentType body w)
     ((call (native request) (mockserver.WithRequestBody contentType body);;
       mret request) w)
   /\ log (snd (V2InteractionWithRequestBuilder.Body request contentType body w))
      = warned requestBodyWarning (IsJSONFormattedObject (String.string_of_list_byte body)))
  /\ V2InteractionWithResponseBuilder.Body response contentType body w
     = (call (native response) (mockserver.WithResponseBody contentType body);;
        mret response) w.
Proof.
  intros Vq Vp warned. subst warned.
  unfold V2InteractionWithRequestBuilder.JSONBody, V2InteractionWithResponseBuilder.JSONBody,
    V2InteractionWithRequestBuilder.Body, V2InteractionWithResponseBuilder.Body, agreeUpToLog.
  rewrite Vq, Vp.
  destruct (IsJSONFormattedObject s);
    destruct (IsJSONFormattedObject (String.string_of_list_byte body));
    destruct w as [sv st lg];
    cbv [mbind M_bind mret M_ret call logPrintln fst snd servers store log];
    destruct (st !! native request); destruct (st !! native response);
    rewrite ?app_nil_r; repeat split; reflexivity.
Qed.

(** ** The request *)

(** C9. [WithRequest] with a string path is [WithRequestPathMatcher] with that
    path as the exact-string matcher [matchers.String]: the same outcome, the
    same world and a handle of the same type, for every method, path, builder
    list and starting world; a chain resolves the two calls to the same
    handle type.  With no builder, what either leaves in the interaction is
    the method and the path [matchers.String path]. *)
Theorem WithRequest_is_WithRequestPathMatcher_String `{Utils}
    (i : UnconfiguredV2Interaction) (method : Method) (path : string)
    (builders : list V2RequestBuilder) (w : World) :
  UnconfiguredV2Interaction.WithRequest i method path builders w
  = UnconfiguredV2Interaction.WithRequestPathMatcher i method (matchers.String path) builders w
  /\ Chain.kindAfter KUnconfigured [Chain.WithRequest method path builders]
    = Chain.kindAfter KUnconfigured
        [Chain.WithRequestPathMatcher method (matchers.String path) builders]
  /\ (forall x, deref w (native i) = Some x ->
      UnconfiguredV2Interaction.WithRequest i method path [] w
      = (Ok ({| interaction := interaction i; provider := provider i |}
               : V2InteractionWithRequest),
         updated w (native i) (mockserver.WithRequest method (matchers.String path) x))).
Proof.
  split; [reflexivity|]. split; [reflexivity|].
  intros x D.
  unfold UnconfiguredV2Interaction.WithRequest, UnconfiguredV2Interaction.WithRequestPathMatcher.
  rewrite bind_unfold, (call_valid _ _ _ _ D). reflexivity.
Qed.

(** ** Chains and handle types *)

Section Chains.

Context `{Utils}.

Lemma kindAfter_nil k : Chain.kindAfter k [] = Some k.
Proof. reflexivity. Qed.

Lemma kindAfter_cons k s rest :
  Chain.kindAfter k (s :: rest) =
  match Chain.returns k s with
  | Some k1 => Chain.kindAfter k1 rest
  | None => None
  end.
Proof.
  unfold Chain.kindAfter, Chain.returns. simpl.
  destruct (Chain.resolve k s) as [[k1 f]|]; simpl; [|reflexivity].
  destruct (Chain.compose k1 rest) as [[k2 g]|]; reflexivity.
Qed.

Lemma kindAfter_app k steps rest :
  Chain.kindAfter k (steps ++ rest) =
  match Chain.kindAfter k steps with
  | Some k1 => Chain.kindAfter k1 rest
  | None => None
  end.
Proof.
  revert k. induction steps as [|s steps IH]; intros k; simpl.
  - reflexivity.
  - rewrite !kindAfter_cons. destruct (Chain.returns k s); [apply IH | reflexivity].
Qed.

Lemma compose_None k steps :
  Chain.compose k steps = None <-> Chain.kindAfter k steps = None.
Proof.
  unfold Chain.kindAfter. destruct (Chain.compose k steps); simpl; split; congruence.
Qed.

Lemma compose_Some k steps k' :
  Chain.kindAfter k steps = Some k' ->
  exists program, Chain.compose k steps = Some (existT k' program).
Proof.
  unfold Chain.kindAfter. destruct (Chain.compose k steps) as [[k1 f]|]; simpl; [|discriminate].
  intros [= <-]. exists f. reflexivity.
Qed.

(** The method sets, read as a table of handle types. *)
Lemma returns_WithRequest k s :
  Chain.returns k s = Some KWithRequest ->
  k = KUnconfigured /\ Chain.isWithRequest s = true.
Proof. destruct k, s; simpl; intros E; try discriminate E; split; reflexivity. Qed.

Lemma returns_WillRespondWith k status builders k' :
  Chain.returns k (Chain.WillRespondWith status builders) = Some k' ->
  k = KWithRequest /\ k' = KWithResponse.
Proof. destruct k; simpl; intros E; try discriminate E. injection E as <-. split; reflexivity. Qed.

Lemma returns_stage k s k' :
  Chain.returns k s = Some k' -> Chain.stage k <= Chain.stage k'.
Proof.
  destruct k, s; simpl; intros E; try discriminate E; injection E as <-; simpl; lia.
Qed.

Lemma returns_GivenOrUponReceiving s :
  Chain.isGivenOrUponReceiving s = true ->
  Chain.returns KUnconfigured s = Some KUnconfigured.
Proof. destruct s; simpl; intros E; try discriminate E; reflexivity. Qed.

Lemma awayFromRequest_kept k steps k' :
  Chain.awayFromRequest k = true ->
  (forall s, In s steps -> Chain.isWithRequest s = false) ->
  Chain.kindAfter k steps = Some k' ->
  Chain.awayFromRequest k' = true.
Proof.
  revert k. induction steps as [|s steps IH]; intros k A N.
  - rewrite kindAfter_nil. intros [= <-]. exact A.
  - rewrite kindAfter_cons. destruct (Chain.returns k s) as [k1|] eqn:R; [|discriminate].
    apply (IH k1).
    + destruct k1; try reflexivity.
      apply returns_WithRequest in R. destruct R as [_ R].
      rewrite (N s) in R; [discriminate R | left; reflexivity].
    + intros s' I. apply N. right. exact I.
Qed.

(** Every method, and so every chain, returns a handle on the interaction
    and the provider of its receiver. *)
Lemma resolve_keepsHandle k s :
  match Chain.resolve k s with
  | Some r => Chain.keepsHandle r
  | None => True
  end.
Proof.
  destruct k, s; simpl; try exact I; intros i w w' i' E; simpl in *;
    unfold UnconfiguredV2Interaction.WithRequest,
      V2InteractionWithRequestBuilder.JSONBody,
      V2InteractionWithResponseBuilder.JSONBody in E;
    try (destruct (validateMatchers _ _); [discriminate E|]);
    repeat (apply bind_Ok in E; destruct E as (? & ? & _ & E));
    injection E as <- _; split; reflexivity.
Qed.

Lemma compose_keepsHandle steps :
  forall k,
    match Chain.compose k steps with
    | Some r => Chain.keepsHandle r
    | None => True
    end.
Proof.
  induction steps as [|s steps IH]; intros k; simpl.
  - intros i w w' i' E. injection E as <- _. split; reflexivity.
  - pose proof (resolve_keepsHandle k s) as Ks.
    destruct (Chain.resolve k s) as [[k1 f]|]; [|exact I].
    specialize (IH k1). destruct (Chain.compose k1 steps) as [[k2 g]|]; [|exact I].
    intros i w w' i' E. simpl in *.
    apply bind_Ok in E. destruct E as (i1 & w1 & E1 & E2).
    destruct (Ks _ _ _ _ E1) as [I1 P1]. destruct (IH _ _ _ _ E2) as [I2 P2].
    split; etransitivity; eassumption.
Qed.

End Chains.

(** ** The order of the builder *)

(** C1. [WillRespondWith] is in the method set of one handle type only, the
    one [WithRequest] and [WithRequestPathMatcher] return, and no other method
    returns that type.  So a chain that calls [WillRespondWith] with neither
    of the two before it is refused when it is composed: it is no program, on
    no handle and in no world does it run, and nothing can touch an
    interaction.  This holds from the handle [AddInteraction] returns and from
    every other handle type but [V2InteractionWithRequest] itself. *)
Theorem WillRespondWith_only_after_WithRequest `{Utils}
    (k : HandleKind) (steps rest : list Chain.Step)
    (status : Z) (builders : list V2ResponseBuilder) :
  Chain.awayFromRequest k = true ->
  (forall s, In s steps -> Chain.isWithRequest s = false) ->
  Chain.compose k (steps ++ Chain.WillRespondWith status builders :: rest) = None
  /\ (forall (i : Handle k) (w : World),
        Chain.run (steps ++ Chain.WillRespondWith status builders :: rest) i w = None)
  /\ (forall k0 k1,
        Chain.returns k0 (Chain.WillRespondWith status builders) = Some k1 ->
        k0 = KWithRequest /\ k1 = KWithResponse)
  /\ (forall k0 s,
        Chain.returns k0 s = Some KWithRequest ->
        k0 = KUnconfigured /\ Chain.isWithRequest s = true).
Proof.
  intros A N.
  assert (C : Chain.compose k (steps ++ Chain.WillRespondWith status builders :: rest) = None).
  { apply compose_None. rewrite kindAfter_app.
    destruct (Chain.kindAfter k steps) as [k1|] eqn:K; [|reflexivity].
    pose proof (awayFromRequest_kept _ _ _ A N K) as A1.
    rewrite kindAfter_cons.
    destruct (Chain.returns k1 _) as [k2|] eqn:R; [|reflexivity].
    apply returns_WillRespondWith in R. destruct R as [-> _]. discriminate A1. }
  split; [exact C|]. split; [|split].
  - intros i w. unfold Chain.run. rewrite C. reflexivity.
  - intros k0 k1. apply returns_WillRespondWith.
  - intros k0 s. apply returns_WithRequest.
Qed.

Lemma returns_Unconfigured `{Utils} k s :
  Chain.returns k s = Some KUnconfigured ->
  k = KUnconfigured /\ Chain.isGivenOrUponReceiving s = true.
Proof. destruct k, s; simpl; intros E; try discriminate E; split; reflexivity. Qed.

Lemma returns_GivenOrUponReceiving_only_Unconfigured `{Utils} k s k' :
  Chain.returns k s = Some k' ->
  Chain.isGivenOrUponReceiving s = true ->
  k = KUnconfigured /\ k' = KUnconfigured.
Proof.
  destruct k, s; simpl; intros E G; try discriminate E; try discriminate G;
    injection E as <-; split; reflexivity.
Qed.

Lemma kindAfter_Unconfigured `{Utils} steps :
  forall k, Chain.kindAfter k steps = Some KUnconfigured -> k = KUnconfigured.
Proof.
  induction steps as [|s steps IH]; intros k.
  - rewrite kindAfter_nil. intros [= ->]. reflexivity.
  - rewrite kindAfter_cons. destruct (Chain.returns k s) as [k1|] eqn:R; [|discriminate].
    intros K. rewrite (IH k1 K) in R. apply returns_Unconfigured in R. tauto.
Qed.

(** C5, as the code has it.  Along every chain the handle types only move
    forward in the builder order, and every method of the chain but [Given]
    and [UponReceiving] moves strictly forward (a builder method stays on its
    builder).  [Given] and [UponReceiving] are methods of the unconfigured
    handle only and return it, so any sequence of the two, in any order, is a
    chain that ends on the unconfigured handle; and once any other method has
    been called, a chain that calls [Given] or [UponReceiving] again is
    refused. *)
Theorem handle_types_only_move_forward `{Utils}
    (k k' : HandleKind) (steps prelude : list Chain.Step) :
  Chain.kindAfter k steps = Some k' ->
  forallb Chain.isGivenOrUponReceiving prelude = true ->
  Chain.stage k <= Chain.stage k'
  /\ Chain.kindAfter KUnconfigured prelude = Some KUnconfigured
  /\ (forall k0 s k1,
        Chain.returns k0 s = Some k1 ->
        Chain.isGivenOrUponReceiving s = true ->
        k0 = KUnconfigured /\ k1 = KUnconfigured)
  /\ (forall k0 s k1,
        Chain.returns k0 s = Some k1 ->
        Chain.isGivenOrUponReceiving s = false ->
        Chain.stage k0 < Chain.stage k1
        \/ (k0 = KWithRequestBuilder /\ k1 = KWithRequestBuilder)
        \/ (k0 = KWithResponseBuilder /\ k1 = KWithResponseBuilder))
  /\ (forall k0 before s after g rest,
        Chain.isGivenOrUponReceiving s = false ->
        Chain.isGivenOrUponReceiving g = true ->
        Chain.compose k0 (before ++ s :: after ++ g :: rest) = None).
Proof.
  intros K G. split; [|split; [|split; [|split]]].
  - revert k K. induction steps as [|s steps IH]; intros k.
    + rewrite kindAfter_nil. intros [= <-]. lia.
    + rewrite kindAfter_cons. destruct (Chain.returns k s) as [k1|] eqn:R; [|discriminate].
      intros K. apply returns_stage in R. specialize (IH k1 K). lia.
  - clear K. induction prelude as [|s prelude IH]; [reflexivity|].
    simpl in G. apply andb_true_iff in G. destruct G as [Gs G].
    rewrite kindAfter_cons, (returns_GivenOrUponReceiving s Gs). exact (IH G).
  - intros k0 s k1. apply returns_GivenOrUponReceiving_only_Unconfigured.
  - intros k0 s k1. destruct k0, s; simpl; intros E N;
      try discriminate E; try discriminate N; injection E as <-; simpl; auto.
  - intros k0 before s after g rest Ns Gg. apply compose_None.
    rewrite kindAfter_app.
    destruct (Chain.kindAfter k0 before) as [ka|]; [|reflexivity].
    rewrite kindAfter_cons.
    destruct (Chain.returns ka s) as [kb|] eqn:Rs; [|reflexivity].
    rewrite kindAfter_app.
    destruct (Chain.kindAfter kb after) as [kc|] eqn:Ka; [|reflexivity].
    rewrite kindAfter_cons.
    destruct (Chain.returns kc g) as [kd|] eqn:Rg; [|reflexivity].
    exfalso.
    destruct (returns_GivenOrUponReceiving_only_Unconfigured _ _ _ Rg Gg) as [-> _].
    apply kindAfter_Unconfigured in Ka. subst kb.
    apply returns_Unconfigured in Rs. destruct Rs as [_ Rs]. congruence.
Qed.

(** C5, as the claim has it, fails: on a fresh interaction,
    [UponReceiving] followed by [Given] is a chain, it runs, and the state is
    added to the interaction that already has its description. *)
Lemma Given_after_UponReceiving_runs :
  exists (i : UnconfiguredV2Interaction) (w : World),
    @Sample.run Sample.utils
      [Chain.UponReceiving "A request to do a foo"; Chain.Given "User foo exists"]
    = Some (Ok (existT KUnconfigured i), w)
    /\ deref w (native i)
       = Some {| mockserver.states :=
                   [ {| mockserver.name := "User foo exists"; mockserver.parameters := [] |} ];
                 mockserver.description := "A request to do a foo";
                 mockserver.request := mockserver.emptyRequest;
                 mockserver.response := mockserver.emptyResponse |}.
Proof. eexists. eexists. split; reflexivity. Qed.

(** C4 on the code: the chain [AddInteraction().WithRequest(..).WillRespondWith(..)]
    is a program, it ends on the complete handle, and the interaction it
    leaves in the contract has the empty description [AddInteraction] gave it;
    so does the chain that calls [UponReceiving] with the empty string. *)
Theorem complete_interaction_with_empty_description :
  (exists (m : V2InteractionWithResponse) (w : World),
     @Sample.run Sample.utils
       [Chain.WithRequest "GET" "/" []; Chain.WillRespondWith 200 []]
     = Some (Ok (existT KWithResponse m), w)
     /\ mockserver.description <$> aggregate w Sample.pact = [""])
  /\ (exists (m : V2InteractionWithResponse) (w : World),
     @Sample.run Sample.utils
       [Chain.UponReceiving ""; Chain.WithRequest "GET" "/" []; Chain.WillRespondWith 200 []]
     = Some (Ok (existT KWithResponse m), w)
     /\ mockserver.description <$> aggregate w Sample.pact = [""]).
Proof. split; eexists; eexists; split; reflexivity. Qed.

(** ** Provider states *)

Lemma updated_updated w ptr a b : updated (updated w ptr a) ptr b = updated w ptr b.
Proof. unfold updated. simpl. rewrite list_insert_insert_eq. reflexivity. Qed.

Lemma deref_updated w ptr x a :
  deref w ptr = Some x -> deref (updated w ptr a) ptr = Some a.
Proof.
  unfold deref, updated. simpl. intros D.
  apply list_lookup_insert_eq. exact (lookup_lt_Some _ _ _ D).
Qed.

Lemma updated_same w ptr x : deref w ptr = Some x -> updated w ptr x = w.
Proof.
  unfold deref, updated. intros D. rewrite (list_insert_id _ _ _ D).
  destruct w; reflexivity.
Qed.

(** One [Given] adds exactly one state, after those already there, and
    touches nothing else. *)
Lemma Given_one (i : UnconfiguredV2Interaction) (state : string) (w : World) x :
  deref w (native i) = Some x ->
  UnconfiguredV2Interaction.Given i state w
  = (Ok i, updated w (native i)
             {| mockserver.states := mockserver.states x ++ namedStates [state];
                mockserver.description := mockserver.description x;
                mockserver.request := mockserver.request x;
                mockserver.response := mockserver.response x |}).
Proof.
  intros D. unfold UnconfiguredV2Interaction.Given.
  rewrite bind_unfold, (call_valid _ _ _ _ D). reflexivity.
Qed.

Lemma Given_chain `{Utils} (names : list string) :
  forall (i : UnconfiguredV2Interaction) (w : World) x,
    deref w (native i) = Some x ->
    exists program,
      Chain.compose KUnconfigured (map Chain.Given names)
      = Some (existT KUnconfigured program)
      /\ program i w
         = (Ok i, updated w (native i)
                    {| mockserver.states := mockserver.states x ++ namedStates names;
                       mockserver.description := mockserver.description x;
                       mockserver.request := mockserver.request x;
                       mockserver.response := mockserver.response x |}).
Proof.
  induction names as [|n names IH]; intros i w x D.
  - exists mret. split; [reflexivity|].
    unfold namedStates. simpl. rewrite app_nil_r.
    replace {| mockserver.states := mockserver.states x;
               mockserver.description := mockserver.description x;
               mockserver.request := mockserver.request x;
               mockserver.response := mockserver.response x |} with x
      by (destruct x; reflexivity).
    rewrite (updated_same _ _ _ D). reflexivity.
  - pose proof (Given_one i n w x D) as G.
    pose proof (deref_updated _ _ _
                  {| mockserver.states := mockserver.states x ++ namedStates [n];
                     mockserver.description := mockserver.description x;
                     mockserver.request := mockserver.request x;
                     mockserver.response := mockserver.response x |} D) as D1.
    destruct (IH i _ _ D1) as [program [C R]].
    exists (fun i0 => i1 ← UnconfiguredV2Interaction.Given i0 n; program i1).
    split.
    + simpl. rewrite C. reflexivity.
    + rewrite bind_unfold, G, R, updated_updated. simpl.
      rewrite <- app_assoc. reflexivity.
Qed.

Lemma AddInteraction_fresh (p : V2HTTPMockProvider) (w : World) s m :
  httpMockProvider.mockserver (httpMockProvider p) = Some s ->
  servers w !! s = Some m ->
  exists (i : UnconfiguredV2Interaction) (w0 : World),
    V2HTTPMockProvider.AddInteraction p w = (Ok i, w0)
    /\ provider i = p
    /\ Interaction.specificationVersion (interaction i) = models.V2
    /\ deref w0 (native i) = Some (mockserver.NewInteraction "").
Proof.
  intros S L. destruct w as [sv st lg]. simpl in L.
  unfold V2HTTPMockProvider.AddInteraction.
  cbv [mbind M_bind mret M_ret logPrintln NewInteraction servers store log].
  rewrite S, L.
  eexists. eexists. split; [reflexivity|]. split; [reflexivity|]. split; [reflexivity|].
  unfold deref, native. simpl. apply list_lookup_middle. reflexivity.
Qed.

(** C6. On the interaction [AddInteraction] has just created, any number of
    [Given] calls, chained before [UponReceiving], is a program that returns;
    it leaves the interaction with exactly the states named, one per call, in
    call order, each with no parameters, and with nothing else changed. *)
Theorem Given_appends_states_in_order `{Utils}
    (p : V2HTTPMockProvider) (w : World) (s : nat) (m : mockserver.MockServer)
    (names : list string) :
  httpMockProvider.mockserver (httpMockProvider p) = Some s ->
  servers w !! s = Some m ->
  exists program (i : UnconfiguredV2Interaction) (w' : World),
    Chain.compose KUnconfigured (map Chain.Given names)
    = Some (existT KUnconfigured program)
    /\ (i0 ← V2HTTPMockProvider.AddInteraction p; program i0) w = (Ok i, w')
    /\ deref w' (native i)
       = Some {| mockserver.states := namedStates names;
                 mockserver.description := "";
                 mockserver.request := mockserver.emptyRequest;
                 mockserver.response := mockserver.emptyResponse |}
    /\ length (namedStates names) = length names.
Proof.
  intros S L.
  destruct (AddInteraction_fresh p w s m S L) as (i & w0 & A & _ & _ & D).
  destruct (Given_chain names i w0 _ D) as (program & C & R).
  exists program, i, (updated w0 (native i)
    {| mockserver.states := namedStates names;
       mockserver.description := "";
       mockserver.request := mockserver.emptyRequest;
       mockserver.response := mockserver.emptyResponse |}).
  split; [exact C|]. split; [|split].
  - rewrite bind_unfold, A. exact R.
  - eapply deref_updated. exact D.
  - unfold namedStates. apply length_map.
Qed.

(** ** The response *)

(** C8. [WillRespondWith] first sets the status: the builders start in the
    world in which the interaction already has it.  It then runs the
    builders in the order given, the first of the list first and the last of
    the list after all the others, each on a handle over the one interaction
    and provider of the receiver; a builder that panics stops the rest. *)
Theorem WillRespondWith_status_then_builders_in_order
    (i : V2InteractionWithRequest) (status : Z) (x : mockserver.Interaction) (w : World) :
  deref w (native i) = Some x ->
  let handle : V2InteractionWithResponseBuilder :=
    {| interaction := interaction i; provider := provider i |} in
  let complete : V2InteractionWithResponse :=
    {| interaction := interaction i; provider := provider i |} in
  let w1 := updated w (native i) (mockserver.WithStatus status x) in
  mockserver.status <$> (mockserver.response <$> deref w1 (native i)) = Some status
  /\ V2InteractionWithRequest.WillRespondWith i status [] w = (Ok complete, w1)
  /\ (forall builder builders,
        V2InteractionWithRequest.WillRespondWith i status (builder :: builders) w
        = (builder handle;;
           forEach builders (fun b => b handle);;
           mret complete) w1)
  /\ (forall builders builder,
        V2InteractionWithRequest.WillRespondWith i status (builders ++ [builder]) w
        = (V2InteractionWithRequest.WillRespondWith i status builders;;
           builder handle;;
           mret complete) w).
Proof.
  intros D handle complete w1.
  assert (Run : forall builders,
    V2InteractionWithRequest.WillRespondWith i status builders w
    = (forEach builders (fun b => b handle);; mret complete) w1).
  { intros builders. unfold V2InteractionWithRequest.WillRespondWith.
    rewrite bind_unfold, (call_valid _ _ _ _ D). reflexivity. }
  split; [|split; [|split]].
  - unfold w1. rewrite (deref_updated _ _ _ _ D). reflexivity.
  - rewrite Run. reflexivity.
  - intros builder builders. rewrite Run. simpl forEach. apply bind_assoc.
  - intros builders builder.
    rewrite (bind_unfold (V2InteractionWithRequest.WillRespondWith i status builders)).
    rewrite !Run.
    rewrite (bind_unfold (forEach (builders ++ [builder]) _)), forEach_app.
    rewrite (bind_unfold (forEach builders _) (fun _ => mret complete)).
    rewrite (bind_unfold (forEach builders _)).
    destruct (forEach builders (fun b => b handle) w1) as [[[]|e] w2]; [|reflexivity].
    cbv beta iota. simpl forEach. unfold mret, M_ret. rewrite !bind_unfold.
    destruct (builder handle w2) as [[[]|e] w3]; reflexivity.
Qed.

(** ** Running the test *)

(** C7. [ExecuteTest] on a complete handle is [ExecuteTest] on the provider
    the handle carries: the same error, [nil] or not, and the same world.  A
    complete handle reached by a chain from [p.AddInteraction()] carries [p],
    whatever the builders of the chain did. *)
Theorem ExecuteTest_on_handle_is_ExecuteTest_on_provider `{Utils} `{Runtime}
    (p : V2HTTPMockProvider) (steps : list Chain.Step)
    (program : UnconfiguredV2Interaction -> M V2InteractionWithResponse)
    (w w' : World) (m : V2InteractionWithResponse)
    (t : testing_T) (integrationTest : MockServerConfig -> M (option Error)) :
  Chain.compose KUnconfigured steps = Some (existT KWithResponse program) ->
  (i ← V2HTTPMockProvider.AddInteraction p; program i) w = (Ok m, w') ->
  provider m = p
  /\ V2InteractionWithResponse.ExecuteTest m t integrationTest w'
     = V2HTTPMockProvider.ExecuteTest p t integrationTest w'
  /\ (forall (m0 : V2InteractionWithResponse) (w0 : World),
        V2InteractionWithResponse.ExecuteTest m0 t integrationTest w0
        = V2HTTPMockProvider.ExecuteTest (provider m0) t integrationTest w0).
Proof.
  intros C R.
  assert (P : provider m = p).
  { apply bind_Ok in R. destruct R as (i & w0 & A & R).
    pose proof (compose_keepsHandle steps KUnconfigured) as K. rewrite C in K.
    destruct (K i w0 w' m R) as [_ Pm]. transitivity (provider i); [exact Pm|].
    unfold V2HTTPMockProvider.AddInteraction in A.
    apply bind_Ok in A. destruct A as (? & ? & _ & A).
    apply bind_Ok in A. destruct A as (? & ? & _ & A).
    injection A as <- _. reflexivity. }
  split; [exact P|]. split; [|reflexivity].
  unfold V2InteractionWithResponse.ExecuteTest. rewrite P. reflexivity.
Qed.

(** ** The theorems at work on the sample run *)

Lemma WillRespondWith_only_after_WithRequest_witness :
  @Chain.compose Sample.utils KUnconfigured
    ([Chain.Given "User foo exists"; Chain.UponReceiving "A request to do a foo"]
       ++ Chain.WillRespondWith 200 [] :: [])
  = None.
Proof.
  refine (proj1 (@WillRespondWith_only_after_WithRequest Sample.utils KUnconfigured
                   [Chain.Given "User foo exists"; Chain.UponReceiving "A request to do a foo"]
                   [] 200 [] _ _)).
  - reflexivity.
  - intros s [<- | [<- | []]]; reflexivity.
Defined.

Lemma JSONBody_refuses_newer_rules_witness :
  let body := matchers.VMap [("name", matchers.FromProviderState "${name}" "billy")] in
  @V2InteractionWithRequestBuilder.JSONBody Sample.utils
    (Sample.handle KWithRequestBuilder) body Sample.registered
  = (Panic UnsupportedForSpecVersionError, Sample.registered)
  /\ @V2InteractionWithResponseBuilder.JSONBody Sample.utils
    (Sample.handle KWithResponseBuilder) body Sample.registered
  = (Panic UnsupportedForSpecVersionError, Sample.registered)
  /\ validateMatchers models.V3 body = None.
Proof.
  refine (@JSONBody_refuses_newer_rules Sample.utils
            (Sample.handle KWithRequestBuilder) (Sample.handle KWithResponseBuilder)
            (matchers.VMap [("name", matchers.FromProviderState "${name}" "billy")])
            (matchers.FromProviderState "${name}" "billy")
            Sample.registered _ _ _ _).
  - reflexivity.
  - reflexivity.
  - apply (matchers.Contains_child _ (matchers.FromProviderState "${name}" "billy")).
    + left. reflexivity.
    + apply matchers.Contains_here.
  - reflexivity.
Defined.


Lemma handle_types_only_move_forward_witness :
  Chain.stage KUnconfigured <= Chain.stage KWithResponse
  /\ @Chain.kindAfter Sample.utils KUnconfigured
       [Chain.UponReceiving "A request to do a foo"; Chain.Given "User foo exists";
        Chain.Given "User bar exists"]
     = Some KUnconfigured
  /\ @Chain.compose Sample.utils KUnconfigured
       ([Chain.UponReceiving "A request to do a foo"]
          ++ Chain.WithRequest "POST" "/foobar" []
          :: [] ++ Chain.Given "User foo exists" :: [Chain.WillRespondWith 200 []])
     = None.
Proof.
  destruct (@handle_types_only_move_forward Sample.utils KUnconfigured KWithResponse
              [Chain.Given "User foo exists"; Chain.UponReceiving "A request to do a foo";
               Chain.WithRequest "POST" "/foobar" []; Chain.WillRespondWith 200 []]
              [Chain.UponReceiving "A request to do a foo"; Chain.Given "User foo exists";
               Chain.Given "User bar exists"] eq_refl eq_refl)
    as (S & P & _ & _ & R).
  split; [exact S|]. split; [exact P|].
  apply R; reflexivity.
Defined.

Lemma Given_appends_states_in_order_witness :
  exists program (i : UnconfiguredV2Interaction) (w' : World),
    @Chain.compose Sample.utils KUnconfigured
      (map Chain.Given ["User foo exists"; "User bar exists"])
    = Some (existT KUnconfigured program)
    /\ (i0 ← V2HTTPMockProvider.AddInteraction Sample.pact; program i0) Sample.world
       = (Ok i, w')
    /\ deref w' (native i)
       = Some {| mockserver.states := namedStates ["User foo exists"; "User bar exists"];
                 mockserver.description := "";
                 mockserver.request := mockserver.emptyRequest;
                 mockserver.response := mockserver.emptyResponse |}
    /\ length (namedStates ["User foo exists"; "User bar exists"]) = 2.
Proof.
  refine (@Given_appends_states_in_order Sample.utils Sample.pact Sample.world 0
            {| mockserver.interactions := [] |}
            ["User foo exists"; "User bar exists"] _ _); reflexivity.
Defined.

Lemma WillRespondWith_status_then_builders_in_order_witness :
  V2InteractionWithRequest.WillRespondWith (Sample.handle KWithRequest) 200 [] Sample.registered
  = (Ok (Sample.handle KWithResponse),
     updated Sample.registered 0 (mockserver.WithStatus 200 (mockserver.NewInteraction ""))).
Proof.
  refine (proj1 (proj2 (WillRespondWith_status_then_builders_in_order
                          (Sample.handle KWithRequest) 200 (mockserver.NewInteraction "")
                          Sample.registered _))).
  reflexivity.
Defined.

Lemma ExecuteTest_on_handle_is_ExecuteTest_on_provider_witness :
  @V2InteractionWithResponse.ExecuteTest Sample.runtime (Sample.handle KWithResponse) tt
    (fun _ => mret None)
    (updated Sample.registered 0
       (mockserver.WithStatus 200
          (mockserver.WithRequest "GET" (matchers.String "/") (mockserver.NewInteraction ""))))
  = @V2HTTPMockProvider.ExecuteTest Sample.runtime Sample.pact tt (fun _ => mret None)
      (updated Sample.registered 0
         (mockserver.WithStatus 200
            (mockserver.WithRequest "GET" (matchers.String "/") (mockserver.NewInteraction "")))).
Proof.
  refine (proj1 (proj2 (@ExecuteTest_on_handle_is_ExecuteTest_on_provider
                          Sample.utils Sample.runtime Sample.pact
                          [Chain.WithRequest "GET" "/" []; Chain.WillRespondWith 200 []]
                          _ Sample.world _ (Sample.handle KWithResponse) tt
                          (fun _ => mret None) _ _))); reflexivity.
Defined.

Lemma JSON_object_check_only_warns_witness :
  agreeUpToLog
    (@V2InteractionWithRequestBuilder.JSONBody Sample.utils
       (Sample.handle KWithRequestBuilder) (matchers.VString "{ }") Sample.registered)
    ((call 0 (mockserver.WithJSONRequestBody (matchers.VString "{ }"));;
      mret (Sample.handle KWithRequestBuilder)) Sample.registered)
  /\ log (snd (@V2InteractionWithRequestBuilder.JSONBody Sample.utils
                 (Sample.handle KWithRequestBuilder) (matchers.VString "{ }")
                 Sample.registered))
     = log Sample.registered ++ [requestBodyWarning].
Proof.
  refine (proj1 (JSON_object_check_only_warns Sample.utils
                   (Sample.handle KWithRequestBuilder) (Sample.handle KWithResponseBuilder)
                   "{ }" "application/json" [] Sample.registered _ _)); reflexivity.
Defined.

Lemma WithRequest_is_WithRequestPathMatcher_String_witness :
  UnconfiguredV2Interaction.WithRequest (Sample.handle KUnconfigured) "POST" "/foobar" []
    Sample.registered
  = (Ok (Sample.handle KWithRequest),
     updated Sample.registered 0
       (mockserver.WithRequest "POST" (matchers.String "/foobar")
          (mockserver.NewInteraction ""))).
Proof.
  refine (proj2 (proj2 (@WithRequest_is_WithRequestPathMatcher_String Sample.utils
                          (Sample.handle KUnconfigured) "POST" "/foobar" []
                          Sample.registered))
            (mockserver.NewInteraction "") _).
  reflexivity.
Defined.

(** ** The consumer test, run *)

Section ConsumerTest.

#[local] Existing Instance Sample.utils.

(** The chain of the consumer test builds the interaction its calls read
    out, registered with the mock server of the pact. *)
Example consumer_test_interaction :
  exists (m : V2InteractionWithResponse) (w : World),
    Sample.run
      [Chain.Given "User foo exists";
       Chain.UponReceiving "A request to do a foo";
       Chain.WithRequestPathMatcher "POST" (matchers.Regex "/foobar" "\/foo.*")
         [Sample.requestBuilder];
       Chain.WillRespondWith 200 [Sample.responseBuilder]]
    = Some (Ok (existT KWithResponse m), w)
    /\ aggregate w Sample.pact
       = [ {| mockserver.states := namedStates ["User foo exists"];
              mockserver.description := "A request to do a foo";
              mockserver.request :=
                {| mockserver.method := "POST";
                   mockserver.path := matchers.Regex "/foobar" "\/foo.*";
                   mockserver.query :=
                     [("baz", [matchers.Regex "bar" "[a-z]+"; matchers.Regex "bat" "[a-z]+"])];
                   mockserver.requestHeaders :=
                     [("Content-Type", [matchers.String "application/json"])];
                   mockserver.requestBody :=
                     Some (mockserver.JSONBody
                             (matchers.VMap [("id", matchers.TypeLike (matchers.VInt 27))])) |};
              mockserver.response :=
                {| mockserver.status := 200;
                   mockserver.responseHeaders := [];
                   mockserver.responseBody :=
                     Some (mockserver.JSONBody
                             (matchers.VMap
                                [("id", matchers.TypeLike (matchers.VInt 27));
                                 ("name", matchers.TypeLike (matchers.VString "Billy"));
                                 ("lastName", matchers.TypeLike (matchers.VString "Sampson"));
                                 ("datetime",
                                  matchers.TypeLike
                                    (matchers.VString "2020-01-01'T'08:00:45"))])) |} |} ].
Proof. eexists. eexists. split; reflexivity. Qed.

(** A V3 rule in a JSON body stops [WithRequest] where [JSONBody] is called:
    the header set before it stays, the query after it is never added, and
    the panic reaches the caller. *)
Example newer_rule_stops_the_builders :
  exists (w : World),
    Sample.run
      [Chain.WithRequest "POST" "/foobar"
         [ (fun b => V2InteractionWithRequestBuilder.Header b "Accept" [];; mret tt);
           (fun b => V2InteractionWithRequestBuilder.JSONBody b
                       (matchers.VSlice [matchers.DateTimeGenerated "2020-01-01" "yyyy-MM-dd"]);;
                     mret tt);
           (fun b => V2InteractionWithRequestBuilder.Query b "baz" [];; mret tt) ]]
    = Some (Panic UnsupportedForSpecVersionError, w)
    /\ mockserver.request <$> aggregate w Sample.pact
       = [ {| mockserver.method := "POST";
              mockserver.path := matchers.String "/foobar";
              mockserver.query := [];
              mockserver.requestHeaders := [("Accept", [])];
              mockserver.requestBody := None |} ].
Proof. eexists. split; reflexivity. Qed.

(** Response builders run in list order on the one interaction: of two JSON
    bodies the later one stays, and both see the status. *)
Example later_builder_overwrites :
  exists (m : V2InteractionWithResponse) (w : World),
    Sample.run
      [Chain.WithRequest "GET" "/" [];
       Chain.WillRespondWith 404
         [ (fun b => V2InteractionWithResponseBuilder.JSONBody b (matchers.VString "first");;
                     mret tt);
           (fun b => V2InteractionWithResponseBuilder.JSONBody b (matchers.VString "second");;
                     mret tt) ]]
    = Some (Ok (existT KWithResponse m), w)
    /\ mockserver.response <$> aggregate w Sample.pact
       = [ {| mockserver.status := 404;
              mockserver.responseHeaders := [];
              mockserver.responseBody :=
                Some (mockserver.JSONBody (matchers.VString "second")) |} ].
Proof. eexists. eexists. split; reflexivity. Qed.

(** The handles of one interaction share it: an unconfigured handle kept in a
    variable still reaches the interaction after [WithRequest] has returned
    the next handle. *)
Example kept_handle_still_writes :
  exists (w : World),
    (i ← V2HTTPMockProvider.AddInteraction Sample.pact;
     r ← UnconfiguredV2Interaction.WithRequest i "GET" "/" [];
     _ ← UnconfiguredV2Interaction.Given i "added late";
     V2InteractionWithRequest.WillRespondWith r 200 []) Sample.world
    = (Ok (Sample.handle KWithResponse), w)
    /\ mockserver.states <$> aggregate w Sample.pact = [namedStates ["added late"]].
Proof. eexists. split; reflexivity. Qed.

End ConsumerTest.

(** * Further properties of the facade *)

(** ** The chains the method sets accept *)

Section ChainShapes.

Context `{Utils}.

Lemma after_complete_nothing steps k' :
  Chain.kindAfter KWithResponse steps = Some k' -> steps = [].
Proof.
  destruct steps as [|s steps]; [reflexivity|].
  rewrite kindAfter_cons. destruct s; discriminate.
Qed.

Lemma after_WithRequest_only_WillRespondWith steps k' :
  Chain.kindAfter KWithRequest steps = Some k' ->
  (steps = [] /\ k' = KWithRequest)
  \/ (exists status builders,
        steps = [Chain.WillRespondWith status builders] /\ k' = KWithResponse).
Proof.
  destruct steps as [|s steps].
  - rewrite kindAfter_nil. intros [= <-]. left. split; reflexivity.
  - rewrite kindAfter_cons. destruct s; try discriminate. simpl.
    intros K. pose proof (after_complete_nothing _ _ K) as ->.
    rewrite kindAfter_nil in K. injection K as <-.
    right. eexists. eexists. split; reflexivity.
Qed.

Lemma after_WithCompleteRequest_only_WithCompleteResponse steps k' :
  Chain.kindAfter KWithCompleteRequest steps = Some k' ->
  (steps = [] /\ k' = KWithCompleteRequest)
  \/ (exists response, steps = [Chain.WithCompleteResponse response] /\ k' = KWithResponse).
Proof.
  destruct steps as [|s steps].
  - rewrite kindAfter_nil. intros [= <-]. left. split; reflexivity.
  - rewrite kindAfter_cons. destruct s; try discriminate. simpl.
    intros K. pose proof (after_complete_nothing _ _ K) as ->.
    rewrite kindAfter_nil in K. injection K as <-.
    right. eexists. split; reflexivity.
Qed.

Lemma CompleteChain_kindAfter steps :
  CompleteChain steps -> Chain.kindAfter KUnconfigured steps = Some KWithResponse.
Proof.
  induction 1; try reflexivity; rewrite kindAfter_cons; simpl; assumption.
Qed.

Lemma kindAfter_CompleteChain steps :
  Chain.kindAfter KUnconfigured steps = Some KWithResponse -> CompleteChain steps.
Proof.
  induction steps as [|s steps IH].
  - rewrite kindAfter_nil. discriminate.
  - rewrite kindAfter_cons. destruct s; try discriminate; simpl; intros K.
    + constructor. exact (IH K).
    + constructor. exact (IH K).
    + apply after_WithCompleteRequest_only_WithCompleteResponse in K.
      destruct K as [[_ K] | [response [-> _]]]; [discriminate K | constructor].
    + apply after_WithRequest_only_WillRespondWith in K.
      destruct K as [[_ K] | [status [builders' [-> _]]]]; [discriminate K | constructor].
    + apply after_WithRequest_only_WillRespondWith in K.
      destruct K as [[_ K] | [status [builders' [-> _]]]]; [discriminate K | constructor].
Qed.

Lemma accepted_can_be_completed steps :
  forall k', Chain.kindAfter KUnconfigured steps = Some k' ->
  exists rest, CompleteChain (steps ++ rest).
Proof.
  induction steps as [|s steps IH]; intros k'.
  - intros _.
    exists [Chain.WithRequest "GET" "/" []; Chain.WillRespondWith 200 []]. constructor.
  - rewrite kindAfter_cons. destruct s; try discriminate; simpl; intros K.
    + destruct (IH _ K) as [rest C]. exists rest. constructor. exact C.
    + destruct (IH _ K) as [rest C]. exists rest. constructor. exact C.
    + apply after_WithCompleteRequest_only_WithCompleteResponse in K.
      destruct K as [[-> _] | [response [-> _]]].
      * exists [Chain.WithCompleteResponse mockserver.emptyResponse]. constructor.
      * exists []. constructor.
    + apply after_WithRequest_only_WillRespondWith in K.
      destruct K as [[-> _] | [status [builders' [-> _]]]].
      * exists [Chain.WillRespondWith 200 []]. constructor.
      * exists []. constructor.
    + apply after_WithRequest_only_WillRespondWith in K.
      destruct K as [[-> _] | [status [builders' [-> _]]]].
      * exists [Chain.WillRespondWith 200 []]. constructor.
      * exists []. constructor.
Qed.

(** X5. On a request builder every sequence of its eight methods chains, each
    returning the builder, and a chain that names any other method is
    refused.  The response builder has the same methods but [Query]: a query
    cannot be put on a response. *)
Theorem builder_chains_are_sequences_of_builder_methods (steps : list Chain.Step) :
  Chain.kindAfter KWithRequestBuilder steps
  = (if forallb isRequestBuilderMethod steps then Some KWithRequestBuilder else None)
  /\ Chain.kindAfter KWithResponseBuilder steps
  = (if forallb isResponseBuilderMethod steps then Some KWithResponseBuilder else None)
  /\ (forall key values,
        Chain.kindAfter KWithResponseBuilder (steps ++ [Chain.Query key values]) = None).
Proof.
  assert (Q : Chain.kindAfter KWithRequestBuilder steps
              = (if forallb isRequestBuilderMethod steps
                 then Some KWithRequestBuilder else None)).
  { induction steps as [|s steps IH]; [reflexivity|].
    rewrite kindAfter_cons. destruct s; simpl; try reflexivity; exact IH. }
  assert (P : Chain.kindAfter KWithResponseBuilder steps
              = (if forallb isResponseBuilderMethod steps
                 then Some KWithResponseBuilder else None)).
  { clear Q. induction steps as [|s steps IH]; [reflexivity|].
    rewrite kindAfter_cons. destruct s; simpl; try reflexivity; exact IH. }
  split; [exact Q|]. split; [exact P|].
  intros key values. rewrite kindAfter_app, P.
  destruct (forallb isResponseBuilderMethod steps); reflexivity.
Qed.

End ChainShapes.

(** ** Builders: order, panics, grouping *)

Lemma bind_ret_tt (m : M unit) (w : World) : (m;; mret tt) w = m w.
Proof. rewrite bind_unfold. destruct (m w) as [[[]|e] w']; reflexivity. Qed.

Lemma forEach_panic {A} (before after : list A) (x : A) (f : A -> M unit) e w w1 w2 :
  forEach before f w = (Ok tt, w1) ->
  f x w1 = (Panic e, w2) ->
  forEach (before ++ x :: after) f w = (Panic e, w2).
Proof.
  intros B P. rewrite forEach_app, bind_unfold, B. simpl. rewrite bind_unfold, P. reflexivity.
Qed.

Lemma then_ret_Ok {A} (m : M unit) (a a' : A) w w1 :
  (m;; mret a) w = (Ok a', w1) -> m w = (Ok tt, w1) /\ a' = a.
Proof.
  intros E. apply bind_Ok in E. destruct E as ([] & w0 & E & R).
  injection R as <- <-. split; [exact E | reflexivity].
Qed.

Lemma then_ret_Panic {A} (m : M unit) (a : A) e w w1 :
  m w = (Panic e, w1) -> (m;; mret a) w = (Panic e, w1).
Proof. intros E. rewrite bind_unfold, E. reflexivity. Qed.

(** X6. [WithRequestPathMatcher] first sets the method and the path: the
    builders start in the world in which the interaction already has them.
    It then runs the builders in the order given, the first of the list first
    and the last of the list after all the others, each on a request-builder
    handle over the interaction and provider of the receiver; [WithRequest]
    does the same with its path as [matchers.String]. *)
Theorem WithRequestPathMatcher_request_then_builders_in_order
    (i : UnconfiguredV2Interaction) (method : Method) (path : matchers.Matcher)
    (x : mockserver.Interaction) (w : World) :
  deref w (native i) = Some x ->
  let handle : V2InteractionWithRequestBuilder :=
    {| interaction := interaction i; provider := provider i |} in
  let next : V2InteractionWithRequest :=
    {| interaction := interaction i; provider := provider i |} in
  let w1 := updated w (native i) (mockserver.WithRequest method path x) in
  deref w1 (native i) = Some (mockserver.WithRequest method path x)
  /\ UnconfiguredV2Interaction.WithRequestPathMatcher i method path [] w = (Ok next, w1)
  /\ (forall builder builders,
        UnconfiguredV2Interaction.WithRequestPathMatcher i method path (builder :: builders) w
        = (builder handle;;
           forEach builders (fun b => b handle);;
           mret next) w1)
  /\ (forall builders builder,
        UnconfiguredV2Interaction.WithRequestPathMatcher i method path (builders ++ [builder]) w
        = (UnconfiguredV2Interaction.WithRequestPathMatcher i method path builders;;
           builder handle;;
           mret next) w).
Proof.
  intros D handle next w1.
  assert (Run : forall builders,
    UnconfiguredV2Interaction.WithRequestPathMatcher i method path builders w
    = (forEach builders (fun b => b handle);; mret next) w1).
  { intros builders. unfold UnconfiguredV2Interaction.WithRequestPathMatcher.
    rewrite bind_unfold, (call_valid _ _ _ _ D). reflexivity. }
  split; [|split; [|split]].
  - unfold w1. apply (deref_updated _ _ _ _ D).
  - rewrite Run. reflexivity.
  - intros builder builders. rewrite Run. simpl forEach. apply bind_assoc.
  - intros builders builder.
    rewrite (bind_unfold
               (UnconfiguredV2Interaction.WithRequestPathMatcher i method path builders)).
    rewrite !Run.
    rewrite (bind_unfold (forEach (builders ++ [builder]) _)), forEach_app.
    rewrite (bind_unfold (forEach builders _) (fun _ => mret next)).
    rewrite (bind_unfold (forEach builders _)).
    destruct (forEach builders (fun b => b handle) w1) as [[[]|e] w2]; [|reflexivity].
    cbv beta iota. simpl forEach. unfold mret, M_ret. rewrite !bind_unfold.
    destruct (builder handle w2) as [[[]|e] w3]; reflexivity.
Qed.

(** X7. A builder that panics ends the call it was passed to: when
    [WithRequestPathMatcher] (or [WillRespondWith]) succeeds with the builders
    [before], and [builder] panics in the world they left, the call with
    [before], [builder] and any builders [after] panics with that error in
    the world [builder] left.  The builders [after] never run, and what was
    written before the panic stays. *)
Theorem builder_panic_stops_the_rest :
  (forall (i : UnconfiguredV2Interaction) (method : Method) (path : matchers.Matcher)
          (before after : list V2RequestBuilder) (builder : V2RequestBuilder)
          (e : Error) (h : V2InteractionWithRequest) (w w1 w2 : World),
     UnconfiguredV2Interaction.WithRequestPathMatcher i method path before w = (Ok h, w1) ->
     builder {| interaction := interaction i; provider := provider i |} w1 = (Panic e, w2) ->
     UnconfiguredV2Interaction.WithRequestPathMatcher i method path
       (before ++ builder :: after) w
     = (Panic e, w2))
  /\ (forall (i : V2InteractionWithRequest) (status : Z)
          (before after : list V2ResponseBuilder) (builder : V2ResponseBuilder)
          (e : Error) (h : V2InteractionWithResponse) (w w1 w2 : World),
     V2InteractionWithRequest.WillRespondWith i status before w = (Ok h, w1) ->
     builder {| interaction := interaction i; provider := provider i |} w1 = (Panic e, w2) ->
     V2InteractionWithRequest.WillRespondWith i status (before ++ builder :: after) w
     = (Panic e, w2)).
Proof.
  split.
  - intros i method path before after builder e h w w1 w2 B P.
    unfold UnconfiguredV2Interaction.WithRequestPathMatcher in *.
    apply bind_Ok in B. destruct B as ([] & w0 & C & B).
    apply then_ret_Ok in B. destruct B as [B _].
    rewrite bind_unfold, C. apply then_ret_Panic.
    exact (forEach_panic _ _ _ _ _ _ _ _ B P).
  - intros i status before after builder e h w w1 w2 B P.
    unfold V2InteractionWithRequest.WillRespondWith in *.
    apply bind_Ok in B. destruct B as ([] & w0 & C & B).
    apply then_ret_Ok in B. destruct B as [B _].
    rewrite bind_unfold, C. apply then_ret_Panic.
    exact (forEach_panic _ _ _ _ _ _ _ _ B P).
Qed.

(** X10. How the builders are grouped does not matter: passing two lists of
    builders one after the other is the same as passing the single builder
    that runs the first list and then the second, for
    [WithRequestPathMatcher] and for [WillRespondWith]. *)
Theorem builders_can_be_grouped :
  (forall (i : UnconfiguredV2Interaction) (method : Method) (path : matchers.Matcher)
          (first second : list V2RequestBuilder) (w : World),
     UnconfiguredV2Interaction.WithRequestPathMatcher i method path (first ++ second) w
     = UnconfiguredV2Interaction.WithRequestPathMatcher i method path
         [fun b => forEach first (fun f => f b);; forEach second (fun f => f b)] w)
  /\ (forall (i : V2InteractionWithRequest) (status : Z)
          (first second : list V2ResponseBuilder) (w : World),
     V2InteractionWithRequest.WillRespondWith i status (first ++ second) w
     = V2InteractionWithRequest.WillRespondWith i status
         [fun b => forEach first (fun f => f b);; forEach second (fun f => f b)] w).
Proof.
  split.
  - intros i method path first second w.
    unfold UnconfiguredV2Interaction.WithRequestPathMatcher.
    apply bind_ext. intros _ w0. rewrite !(bind_unfold (forEach _ _)).
    simpl forEach. rewrite bind_ret_tt, forEach_app. reflexivity.
  - intros i status first second w.
    unfold V2InteractionWithRequest.WillRespondWith.
    apply bind_ext. intros _ w0. rewrite !(bind_unfold (forEach _ _)).
    simpl forEach. rewrite bind_ret_tt, forEach_app. reflexivity.
Qed.

(** ** What a method may touch *)

Lemma touchesOnly_ret {A} ptr (a : A) : touchesOnly ptr (mret a).
Proof.
  intros w. simpl. repeat split; try reflexivity. exists []. now rewrite app_nil_r.
Qed.

Lemma touchesOnly_panic {A} ptr e : touchesOnly ptr (@panic A e).
Proof.
  intros w. simpl. repeat split; try reflexivity. exists []. now rewrite app_nil_r.
Qed.

Lemma touchesOnly_eval {A} ptr (r : Res A) : touchesOnly ptr (eval r).
Proof.
  intros w. simpl. repeat split; try reflexivity. exists []. now rewrite app_nil_r.
Qed.

Lemma touchesOnly_logPrintln ptr line : touchesOnly ptr (logPrintln line).
Proof. intros w. simpl. repeat split; try reflexivity. exists [line]. reflexivity. Qed.

Lemma touchesOnly_call ptr f : touchesOnly ptr (call ptr f).
Proof.
  intros w. unfold call, deref. destruct (store w !! ptr) as [x|] eqn:L; simpl.
  - split; [reflexivity|]. split; [apply length_insert|]. split.
    + intros q Q. apply list_lookup_insert_ne. congruence.
    + exists []. now rewrite app_nil_r.
  - repeat split; try reflexivity. exists []. now rewrite app_nil_r.
Qed.

Lemma touchesOnly_bind_Ok {A B} ptr (m : M A) (f : A -> M B) :
  touchesOnly ptr m ->
  (forall a w w1, m w = (Ok a, w1) -> touchesOnly ptr (f a)) ->
  touchesOnly ptr (m ≫= f).
Proof.
  intros Tm Tf w. rewrite bind_unfold. specialize (Tm w).
  destruct (m w) as [[a|e] w1] eqn:E; simpl in Tm; [|exact Tm].
  destruct Tm as (S1 & L1 & D1 & lines1 & G1).
  destruct (Tf a w w1 E w1) as (S2 & L2 & D2 & lines2 & G2).
  split; [congruence|]. split; [congruence|]. split.
  - intros q Q. rewrite (D2 q Q). exact (D1 q Q).
  - exists (lines1 ++ lines2). rewrite G2, G1, app_assoc. reflexivity.
Qed.

Lemma touchesOnly_bind {A B} ptr (m : M A) (f : A -> M B) :
  touchesOnly ptr m -> (forall a, touchesOnly ptr (f a)) -> touchesOnly ptr (m ≫= f).
Proof. intros Tm Tf. apply touchesOnly_bind_Ok; [exact Tm | intros a _ _ _; apply Tf]. Qed.

Lemma touchesOnly_forEach {A} ptr (l : list A) (f : A -> M unit) :
  Forall (fun x => touchesOnly ptr (f x)) l -> touchesOnly ptr (forEach l f).
Proof.
  induction 1 as [|x l Tx _ IH]; simpl.
  - apply touchesOnly_ret.
  - apply touchesOnly_bind; [exact Tx | intros _; exact IH].
Qed.

Ltac touches :=
  repeat first
    [ apply touchesOnly_ret
    | apply touchesOnly_panic
    | apply touchesOnly_eval
    | apply touchesOnly_logPrintln
    | apply touchesOnly_call
    | apply touchesOnly_forEach; assumption
    | apply touchesOnly_bind; [|intros ?]
    | match goal with
      | |- touchesOnly _ (if ?c then _ else _) => destruct c
      | |- touchesOnly _ (match ?c with _ => _ end) => destruct c
      end ].

Lemma resolve_touchesOnly `{Utils} k s (i : Handle k) :
  buildersTouchOnly s (interaction i) (provider i) ->
  match Chain.resolve k s with
  | Some r => touchesOnly (native i) (projT2 r i)
  | None => True
  end.
Proof.
  destruct k, s; simpl; try (intros _; exact I); intros B;
    unfold native in *;
    unfold UnconfiguredV2Interaction.Given, UnconfiguredV2Interaction.UponReceiving,
      UnconfiguredV2Interaction.WithCompleteRequest, UnconfiguredV2Interaction.WithRequest,
      UnconfiguredV2Interaction.WithRequestPathMatcher,
      V2InteractionWithCompleteRequest.WithCompleteResponse,
      Interaction.WithCompleteRequest, Interaction.WithCompleteResponse,
      V2InteractionWithRequest.WillRespondWith,
      V2InteractionWithRequestBuilder.Query, V2InteractionWithRequestBuilder.Header,
      V2InteractionWithRequestBuilder.Headers, V2InteractionWithRequestBuilder.JSONBody,
      V2InteractionWithRequestBuilder.BinaryBody, V2InteractionWithRequestBuilder.MultipartBody,
      V2InteractionWithRequestBuilder.Body, V2InteractionWithRequestBuilder.BodyMatch,
      V2InteractionWithResponseBuilder.Header, V2InteractionWithResponseBuilder.Headers,
      V2InteractionWithResponseBuilder.JSONBody, V2InteractionWithResponseBuilder.BinaryBody,
      V2InteractionWithResponseBuilder.MultipartBody, V2InteractionWithResponseBuilder.Body,
      V2InteractionWithResponseBuilder.BodyMatch, native;
    touches.
Qed.

Lemma compose_touchesOnly `{Utils} steps :
  forall k (i : Handle k),
    Forall (fun s => buildersTouchOnly s (interaction i) (provider i)) steps ->
    match Chain.compose k steps with
    | Some r => touchesOnly (native i) (projT2 r i)
    | None => True
    end.
Proof.
  induction steps as [|s steps IH]; intros k i B; simpl.
  - apply touchesOnly_ret.
  - inversion B as [|s' steps' Bs Bsteps]; subst.
    pose proof (resolve_touchesOnly k s i Bs) as Ts.
    pose proof (resolve_keepsHandle k s) as Ks.
    destruct (Chain.resolve k s) as [[k1 f]|]; [|exact I].
    pose proof (fun i1 => IH k1 i1) as IH1.
    destruct (Chain.compose k1 steps) as [[k2 g]|]; [|exact I].
    simpl in *. apply touchesOnly_bind_Ok; [exact Ts|].
    intros i1 w w1 E. destruct (Ks i w w1 i1 E) as [Ei Ep]. simpl in Ei, Ep.
    unfold native. rewrite <- Ei. apply IH1. rewrite Ei, Ep. exact Bsteps.
Qed.

(** X8. A chain changes one interaction only, the one behind the handle it
    starts on, provided the builders it is given keep to that interaction:
    whether it returns or panics, it leaves the registrations of the mock
    servers as they were, creates no interaction, leaves every other
    interaction as it was, and only adds lines to the log. *)
Theorem chain_touches_only_its_interaction `{Utils}
    (k : HandleKind) (steps : list Chain.Step) (i : Handle k)
    (w w' : World) (out : Res { k' : HandleKind & Handle k' }) :
  Forall (fun s => buildersTouchOnly s (interaction i) (provider i)) steps ->
  Chain.run steps i w = Some (out, w') ->
  servers w' = servers w
  /\ length (store w') = length (store w)
  /\ (forall q, q <> native i -> deref w' q = deref w q)
  /\ (exists lines, log w' = log w ++ lines).
Proof.
  intros B R. pose proof (compose_touchesOnly steps k i B) as T.
  unfold Chain.run in R. destruct (Chain.compose k steps) as [[k' f]|]; [|discriminate R].
  simpl in T. injection R as R.
  match type of R with
  | ?m w = _ => assert (T' : touchesOnly (native i) m)
  end.
  { apply touchesOnly_bind; [exact T | intros h; apply touchesOnly_ret]. }
  specialize (T' w). rewrite R in T'. exact T'.
Qed.

(** ** Providers, handles and bodies *)

(** X1. [NewV2Pact] returns a provider or an error, never both and never
    neither: the provider is the one [configure] was given, as [configure]
    left it, when [configure] returned no error, and the error is the one
    [configure] returned otherwise.  [configure] is asked once, for a
    provider of specification version V2 that has the given configuration and
    no mock server yet. *)
Theorem NewV2Pact_provider_or_error (R : Runtime) (config : MockHTTPProviderConfig)
    (w w' : World) (provider : option V2HTTPMockProvider) (err : option Error) :
  NewV2Pact config w = (Ok (provider, err), w') ->
  let start :=
    {| httpMockProvider.config := config;
       httpMockProvider.specificationVersion := models.V2;
       httpMockProvider.mockserver := None |} in
  match provider, err with
  | Some p, None => httpMockProvider_configure start w = (Ok (httpMockProvider p, None), w')
  | None, Some e =>
      exists configured, httpMockProvider_configure start w = (Ok (configured, Some e), w')
  | _, _ => False
  end.
Proof.
  unfold NewV2Pact. rewrite bind_unfold.
  destruct (httpMockProvider_configure _ w) as [[[configured [e|]]|e] w1]; simpl;
    intros E; try discriminate E; injection E as <- <- <-.
  - exists configured. reflexivity.
  - reflexivity.
Qed.

(** X2. Every handle a chain reaches from [p.AddInteraction()] is a handle on
    the interaction [AddInteraction] created, carries [p], and has
    specification version V2, whatever the builders of the chain did and
    whatever version the provider itself records: [JSONBody] on such a handle
    always checks its body against V2. *)
Theorem handles_from_AddInteraction_are_V2 `{Utils}
    (p : V2HTTPMockProvider) (steps : list Chain.Step) (k' : HandleKind)
    (program : UnconfiguredV2Interaction -> M (Handle k'))
    (i : UnconfiguredV2Interaction) (m : Handle k') (w w0 w' : World) :
  V2HTTPMockProvider.AddInteraction p w = (Ok i, w0) ->
  Chain.compose KUnconfigured steps = Some (existT k' program) ->
  program i w0 = (Ok m, w') ->
  interaction m = interaction i
  /\ provider m = p
  /\ Interaction.specificationVersion (interaction m) = models.V2.
Proof.
  intros A C R.
  pose proof (compose_keepsHandle steps KUnconfigured) as K. rewrite C in K.
  destruct (K i w0 w' m R) as [Ei Ep]. simpl in Ei, Ep.
  unfold V2HTTPMockProvider.AddInteraction in A.
  apply bind_Ok in A. destruct A as (? & ? & _ & A).
  apply bind_Ok in A. destruct A as (? & ? & _ & A).
  injection A as <- _. rewrite Ei, Ep. repeat split; reflexivity.
Qed.

(** X9. [JSONBody] asks [IsJSONFormattedObject] about Go strings only: for a
    body of any other type, a [matchers.String] included, the call does the
    same whatever the check would answer, on the request builder and on the
    response builder, and writes no warning. *)
Theorem JSONBody_checks_Go_strings_only (U1 U2 : Utils)
    (request : V2InteractionWithRequestBuilder) (response : V2InteractionWithResponseBuilder)
    (body : matchers.Value) (w : World) :
  (forall s, body <> matchers.VString s) ->
  @V2InteractionWithRequestBuilder.JSONBody U1 request body w
  = @V2InteractionWithRequestBuilder.JSONBody U2 request body w
  /\ @V2InteractionWithResponseBuilder.JSONBody U1 response body w
  = @V2InteractionWithResponseBuilder.JSONBody U2 response body w
  /\ log (snd (@V2InteractionWithRequestBuilder.JSONBody U1 request body w)) = log w
  /\ log (snd (@V2InteractionWithResponseBuilder.JSONBody U1 response body w)) = log w.
Proof.
  intros N.
  unfold V2InteractionWithRequestBuilder.JSONBody, V2InteractionWithResponseBuilder.JSONBody.
  destruct (validateMatchers _ body), (validateMatchers _ body);
    destruct body; try (exfalso; eapply N; reflexivity);
    destruct w as [sv st lg];
    cbv [mbind M_bind mret M_ret call panic fst snd servers store log];
    destruct (st !! native request); destruct (st !! native response);
    repeat split; reflexivity.
Qed.

(** ** The further properties at work on the sample run *)

Lemma WithRequestPathMatcher_request_then_builders_in_order_witness :
  UnconfiguredV2Interaction.WithRequestPathMatcher (Sample.handle KUnconfigured)
    "POST" (matchers.Regex "/foobar" "\/foo.*") [] Sample.registered
  = (Ok (Sample.handle KWithRequest),
     updated Sample.registered 0
       (mockserver.WithRequest "POST" (matchers.Regex "/foobar" "\/foo.*")
          (mockserver.NewInteraction ""))).
Proof.
  refine (proj1 (proj2 (WithRequestPathMatcher_request_then_builders_in_order
                          (Sample.handle KUnconfigured) "POST"
                          (matchers.Regex "/foobar" "\/foo.*")
                          (mockserver.NewInteraction "") Sample.registered _))).
  reflexivity.
Defined.

Lemma builder_panic_stops_the_rest_witness :
  UnconfiguredV2Interaction.WithRequestPathMatcher (Sample.handle KUnconfigured)
    "POST" (matchers.String "/foobar")
    ([] ++ (fun b => @V2InteractionWithRequestBuilder.JSONBody Sample.utils b
                       (matchers.DateTimeGenerated "2020-01-01" "yyyy-MM-dd");;
                     mret tt)
        :: [Sample.requestBuilder])
    Sample.registered
  = (Panic UnsupportedForSpecVersionError,
     updated Sample.registered 0
       (mockserver.WithRequest "POST" (matchers.String "/foobar")
          (mockserver.NewInteraction "")))
  /\ V2InteractionWithRequest.WillRespondWith (Sample.handle KWithRequest) 200
       ([] ++ (fun b => V2InteractionWithResponseBuilder.BodyMatch b matchers.TFunc;;
                        mret tt)
           :: [Sample.responseBuilder])
       Sample.registered
     = (Panic IncompatibleTypeError,
        updated Sample.registered 0
          (mockserver.WithStatus 200 (mockserver.NewInteraction ""))).
Proof.
  split.
  - refine (proj1 builder_panic_stops_the_rest
              (Sample.handle KUnconfigured) "POST" (matchers.String "/foobar")
              [] [Sample.requestBuilder] _ UnsupportedForSpecVersionError
              (Sample.handle KWithRequest) Sample.registered _ _ _ _); reflexivity.
  - refine (proj2 builder_panic_stops_the_rest
              (Sample.handle KWithRequest) 200%Z
              [] [Sample.responseBuilder] _ IncompatibleTypeError
              (Sample.handle KWithResponse) Sample.registered _ _ _ _); reflexivity.
Defined.

Lemma chain_touches_only_its_interaction_witness :
  let w := {| servers := [ {| mockserver.interactions := [0; 1] |} ];
              store := [ mockserver.NewInteraction ""; mockserver.NewInteraction "" ];
              log := [] |} in
  exists out w',
    @Chain.run Sample.utils KUnconfigured
      [Chain.Given "User foo exists"; Chain.WithRequest "GET" "/" [];
       Chain.WillRespondWith 200 []]
      (Sample.handle KUnconfigured) w
    = Some (out, w')
    /\ servers w' = servers w
    /\ length (store w') = 2
    /\ (forall q, q <> 0 -> deref w' q = deref w q)
    /\ (exists lines, log w' = log w ++ lines).
Proof.
  intros w. eexists. eexists. split; [reflexivity|].
  refine (@chain_touches_only_its_interaction Sample.utils KUnconfigured
            [Chain.Given "User foo exists"; Chain.WithRequest "GET" "/" [];
             Chain.WillRespondWith 200 []]
            (Sample.handle KUnconfigured) w _ _ _ _).
  - repeat constructor.
  - reflexivity.
Defined.

Lemma NewV2Pact_provider_or_error_witness :
  @httpMockProvider_configure Sample.runtime
    {| httpMockProvider.config := httpMockProvider.config (httpMockProvider Sample.pact);
       httpMockProvider.specificationVersion := models.V2;
       httpMockProvider.mockserver := None |} Sample.world
  = (Ok ({| httpMockProvider.config := httpMockProvider.config (httpMockProvider Sample.pact);
            httpMockProvider.specificationVersion := models.V2;
            httpMockProvider.mockserver := None |}, None), Sample.world).
Proof.
  refine (NewV2Pact_provider_or_error Sample.runtime
            (httpMockProvider.config (httpMockProvider Sample.pact))
            Sample.world Sample.world
            (Some {| httpMockProvider :=
                       {| httpMockProvider.config :=
                            httpMockProvider.config (httpMockProvider Sample.pact);
                          httpMockProvider.specificationVersion := models.V2;
                          httpMockProvider.mockserver := None |} |})
            None _).
  reflexivity.
Defined.

Lemma handles_from_AddInteraction_are_V2_witness :
  let p := {| httpMockProvider :=
                {| httpMockProvider.config := httpMockProvider.config (httpMockProvider Sample.pact);
                   httpMockProvider.specificationVersion := models.V3;
                   httpMockProvider.mockserver := Some 0 |} |} in
  exists (i : UnconfiguredV2Interaction) (m : V2InteractionWithRequest),
    interaction m = interaction i
    /\ provider m = p
    /\ Interaction.specificationVersion (interaction m) = models.V2.
Proof.
  intros p. eexists. eexists.
  refine (@handles_from_AddInteraction_are_V2 Sample.utils p
            [Chain.UponReceiving "A request to do a foo";
             Chain.WithRequest "POST" "/foobar" [Sample.requestBuilder]]
            KWithRequest _ _ _ Sample.world _ _ _ _ _); reflexivity.
Defined.

Lemma JSONBody_checks_Go_strings_only_witness :
  @V2InteractionWithRequestBuilder.JSONBody Sample.utils
    (Sample.handle KWithRequestBuilder) (matchers.String "{ }") Sample.registered
  = @V2InteractionWithRequestBuilder.JSONBody {| IsJSONFormattedObject := fun _ => false |}
      (Sample.handle KWithRequestBuilder) (matchers.String "{ }") Sample.registered.
Proof.
  refine (proj1 (JSONBody_checks_Go_strings_only
                   Sample.utils {| IsJSONFormattedObject := fun _ => false |}
                   (Sample.handle KWithRequestBuilder) (Sample.handle KWithResponseBuilder)
                   (matchers.String "{ }") Sample.registered _)).
  intros s. discriminate.
Defined.

(** ** Expressions: chains and [ExecuteTest] *)

Section Expressions.

Context `{Utils} `{Runtime}.

Lemma typeAfter_nil ty : Expression.typeAfter ty [] = Some ty.
Proof. reflexivity. Qed.

Lemma typeAfter_cons ty c rest :
  Expression.typeAfter ty (c :: rest) =
  match Expression.returns ty c with
  | Some ty1 => Expression.typeAfter ty1 rest
  | None => None
  end.
Proof.
  unfold Expression.typeAfter, Expression.returns. simpl.
  destruct (Expression.resolve ty c) as [[ty1 f]|]; simpl; [|reflexivity].
  destruct (Expression.compose ty1 rest) as [[ty2 g]|]; reflexivity.
Qed.

Lemma typeAfter_app ty calls rest :
  Expression.typeAfter ty (calls ++ rest) =
  match Expression.typeAfter ty calls with
  | Some ty1 => Expression.typeAfter ty1 rest
  | None => None
  end.
Proof.
  revert ty. induction calls as [|c calls IH]; intros ty; simpl.
  - reflexivity.
  - rewrite !typeAfter_cons. destruct (Expression.returns ty c); [apply IH | reflexivity].
Qed.

Lemma Expression_compose_None ty calls :
  Expression.compose ty calls = None <-> Expression.typeAfter ty calls = None.
Proof.
  unfold Expression.typeAfter. destruct (Expression.compose ty calls); simpl; split; congruence.
Qed.

Lemma returns_Method k s :
  Expression.returns (Expression.THandle k) (Expression.Method s)
  = Expression.THandle <$> Chain.returns k s.
Proof.
  unfold Expression.returns, Chain.returns. simpl.
  destruct (Chain.resolve k s) as [[k' f]|]; reflexivity.
Qed.

(** [ExecuteTest] is a method of the complete handle only, and returns an
    [error]. *)
Lemma returns_ExecuteTest k t integrationTest ty :
  Expression.returns (Expression.THandle k) (Expression.ExecuteTest t integrationTest) = Some ty ->
  k = KWithResponse /\ ty = Expression.TError.
Proof.
  unfold Expression.returns. destruct k; simpl; intros E; try discriminate E.
  injection E as <-. split; reflexivity.
Qed.

Lemma after_error_nothing calls ty :
  Expression.typeAfter Expression.TError calls = Some ty ->
  calls = [] /\ ty = Expression.TError.
Proof.
  destruct calls as [|c calls].
  - rewrite typeAfter_nil. intros [= <-]. split; reflexivity.
  - rewrite typeAfter_cons. discriminate.
Qed.

Lemma typeAfter_methods k steps :
  Expression.typeAfter (Expression.THandle k) (map Expression.Method steps)
  = Expression.THandle <$> Chain.kindAfter k steps.
Proof.
  revert k. induction steps as [|s steps IH]; intros k; [reflexivity|].
  simpl map. rewrite typeAfter_cons, returns_Method, kindAfter_cons.
  destruct (Chain.returns k s) as [k1|]; simpl; [apply IH | reflexivity].
Qed.

(** An expression that type-checks is a chain of handle-returning methods,
    followed or not by one [ExecuteTest] on the complete handle. *)
Lemma typeAfter_shape calls :
  forall k ty,
    Expression.typeAfter (Expression.THandle k) calls = Some ty ->
    (exists steps k',
        calls = map Expression.Method steps
        /\ ty = Expression.THandle k' /\ Chain.kindAfter k steps = Some k')
    \/ (exists steps t integrationTest,
        calls = map Expression.Method steps ++ [Expression.ExecuteTest t integrationTest]
        /\ ty = Expression.TError /\ Chain.kindAfter k steps = Some KWithResponse).
Proof.
  induction calls as [|c calls IH]; intros k ty.
  - rewrite typeAfter_nil. intros [= <-]. left. exists [], k. repeat split; reflexivity.
  - rewrite typeAfter_cons. destruct c as [s | t integrationTest].
    + rewrite returns_Method. destruct (Chain.returns k s) as [k1|] eqn:R; simpl; [|discriminate].
      intros T. destruct (IH k1 ty T) as [(steps & k' & -> & -> & K) | (steps & t & f & -> & -> & K)].
      * left. exists (s :: steps), k'. rewrite kindAfter_cons, R. repeat split; assumption.
      * right. exists (s :: steps), t, f. rewrite kindAfter_cons, R. repeat split; assumption.
    + destruct (Expression.returns _ _) as [ty1|] eqn:R; [|discriminate].
      apply returns_ExecuteTest in R. destruct R as [-> ->]. intros T.
      apply after_error_nothing in T. destruct T as [-> ->].
      right. exists [], t, integrationTest. repeat split; reflexivity.
Qed.

Lemma typeAfter_executed k steps t integrationTest :
  Chain.kindAfter k steps = Some KWithResponse ->
  Expression.typeAfter (Expression.THandle k)
    (map Expression.Method steps ++ [Expression.ExecuteTest t integrationTest])
  = Some Expression.TError.
Proof.
  intros K. rewrite typeAfter_app, typeAfter_methods, K. reflexivity.
Qed.

(** X3. An expression on the handle [AddInteraction] returns has the type of
    the complete handle [V2InteractionWithResponse] exactly when it is a run
    of [Given] and [UponReceiving] calls followed by [WithRequest] (or
    [WithRequestPathMatcher]) and [WillRespondWith], or by
    [WithCompleteRequest] and [WithCompleteResponse]; the two ways cannot be
    mixed.  It has the type [error] exactly when it is such a chain followed
    by [ExecuteTest].  On the complete handle [ExecuteTest] is the one method
    there is, and nothing chains after it. *)
Theorem complete_chains_are_exactly_the_builder_order (calls : list Expression.Call) :
  (Expression.typeAfter (Expression.THandle KUnconfigured) calls
   = Some (Expression.THandle KWithResponse)
   <-> exists steps, calls = map Expression.Method steps /\ CompleteChain steps)
  /\ (Expression.typeAfter (Expression.THandle KUnconfigured) calls = Some Expression.TError
     <-> exists steps t integrationTest,
           calls = map Expression.Method steps ++ [Expression.ExecuteTest t integrationTest]
           /\ CompleteChain steps)
  /\ (forall c ty,
        Expression.returns (Expression.THandle KWithResponse) c = Some ty ->
        (exists t integrationTest, c = Expression.ExecuteTest t integrationTest)
        /\ ty = Expression.TError)
  /\ (forall c, Expression.returns Expression.TError c = None).
Proof.
  split; [|split; [|split]].
  - split.
    + intros T. apply typeAfter_shape in T.
      destruct T as [(steps & k' & -> & E & K) | (steps & t & f & _ & E & _)];
        [|discriminate E].
      injection E as <-. exists steps. split; [reflexivity|].
      exact (kindAfter_CompleteChain steps K).
    + intros (steps & -> & C). rewrite typeAfter_methods, (CompleteChain_kindAfter steps C).
      reflexivity.
  - split.
    + intros T. apply typeAfter_shape in T.
      destruct T as [(steps & k' & _ & E & _) | (steps & t & f & -> & _ & K)];
        [discriminate E|].
      exists steps, t, f. split; [reflexivity|]. exact (kindAfter_CompleteChain steps K).
    + intros (steps & t & f & -> & C).
      exact (typeAfter_executed _ _ _ _ (CompleteChain_kindAfter steps C)).
  - intros [s | t f] ty.
    + rewrite returns_Method. destruct s; discriminate.
    + intros R. apply returns_ExecuteTest in R. destruct R as [_ ->].
      split; [exists t, f|]; reflexivity.
  - intros c. reflexivity.
Qed.

(** X4. An expression on the handle [AddInteraction] returns is a program
    exactly when it is the beginning of a chain that builds a complete
    interaction, or such a complete chain followed by [ExecuteTest]: the
    facade accepts every chain that can still be completed, accepts
    [ExecuteTest] once the chain is complete, and refuses every other
    expression. *)
Theorem accepted_chains_are_prefixes_of_complete_chains (calls : list Expression.Call) :
  Expression.compose (Expression.THandle KUnconfigured) calls <> None
  <-> (exists steps rest, calls = map Expression.Method steps /\ CompleteChain (steps ++ rest))
      \/ (exists steps t integrationTest,
            calls = map Expression.Method steps ++ [Expression.ExecuteTest t integrationTest]
            /\ CompleteChain steps).
Proof.
  split.
  - intros C.
    destruct (Expression.typeAfter (Expression.THandle KUnconfigured) calls) as [ty|] eqn:T.
    + apply typeAfter_shape in T.
      destruct T as [(steps & k' & -> & _ & K) | (steps & t & f & -> & _ & K)].
      * left. destruct (accepted_can_be_completed steps k' K) as [rest R].
        exists steps, rest. split; [reflexivity | exact R].
      * right. exists steps, t, f. split; [reflexivity|].
        exact (kindAfter_CompleteChain steps K).
    + apply Expression_compose_None in T. contradiction.
  - intros [(steps & rest & -> & C) | (steps & t & f & -> & C)] N;
      apply Expression_compose_None in N.
    + rewrite typeAfter_methods in N. apply CompleteChain_kindAfter in C.
      rewrite kindAfter_app in C.
      destruct (Chain.kindAfter KUnconfigured steps); [discriminate N | discriminate C].
    + rewrite (typeAfter_executed _ _ _ _ (CompleteChain_kindAfter steps C)) in N.
      discriminate N.
Qed.

End Expressions.

Lemma complete_chains_are_exactly_the_builder_order_witness :
  exists steps,
    [ Expression.Method (Chain.Given "User foo exists");
      Expression.Method (Chain.UponReceiving "A request to do a foo");
      Expression.Method (Chain.WithRequest "POST" "/foobar" []);
      Expression.Method (Chain.WillRespondWith 200 []) ]
    = map (@Expression.Method Sample.runtime) steps
    /\ CompleteChain steps.
Proof.
  refine (proj1 (proj1 (@complete_chains_are_exactly_the_builder_order
                          Sample.utils Sample.runtime
                          [ Expression.Method (Chain.Given "User foo exists");
                            Expression.Method (Chain.UponReceiving "A request to do a foo");
                            Expression.Method (Chain.WithRequest "POST" "/foobar" []);
                            Expression.Method (Chain.WillRespondWith 200 []) ])) _).
  reflexivity.
Defined.

Lemma accepted_chains_are_prefixes_of_complete_chains_witness :
  @Expression.compose Sample.utils Sample.runtime (Expression.THandle KUnconfigured)
    [ Expression.Method (Chain.WithCompleteRequest mockserver.emptyRequest);
      Expression.Method (Chain.WithCompleteResponse mockserver.emptyResponse);
      @Expression.ExecuteTest Sample.runtime tt (fun _ => mret None) ] <> None.
Proof.
  refine (proj2 (@accepted_chains_are_prefixes_of_complete_chains
                   Sample.utils Sample.runtime
                   [ Expression.Method (Chain.WithCompleteRequest mockserver.emptyRequest);
                     Expression.Method (Chain.WithCompleteResponse mockserver.emptyResponse);
                     @Expression.ExecuteTest Sample.runtime tt (fun _ => mret None) ]) _).
  right.
  exists [Chain.WithCompleteRequest mockserver.emptyRequest;
          Chain.WithCompleteResponse mockserver.emptyResponse], tt, (fun _ => mret None : M (option Error)).
  split; [reflexivity | apply Complete_WithCompleteRequest].
Defined.
